(** * Customer portal backend (backend/index.js)

    A shallow embedding of the Express backend: the OAuth token cache
    ([getAccessToken]), the session check ([authMiddleware]) and the routes
    [POST /login], [POST /order] and [GET /orders].

    Handlers are functions in a small monad [M] over a [World] that holds the
    two module-level variables of the token cache, the wall clock read by
    [Date.now()], the trace of upstream HTTP exchanges performed through
    [fetch], and the lines written with [console.error].  A computation ends
    normally, by a thrown exception, or by sending the HTTP response
    ([return res.status(..).json(..)]).

    JavaScript numbers are modelled as integers ([Z]); [NaN] is [None] where
    arithmetic can produce it.  Time passes while a [fetch] is awaited and
    between requests; a handler runs from start to end without another
    request interleaving at its [await]s. *)

From Stdlib Require Import String Ascii ZArith NArith List Bool Lia.
From Stdlib Require Import DecimalString DecimalZ DecimalPos.
Import ListNotations.
Open Scope string_scope.
Open Scope Z_scope.

Set Warnings "-register-all".

(** ** JavaScript values, as produced by [JSON.parse] and property access *)

Inductive JValue : Type :=
| JUndefined
| JNull
| JBool (b : bool)
| JNum (n : Z)
| JStr (s : string)
| JArr (xs : list JValue)
| JObj (fields : list (string * JValue)).

(** [!!v] *)
Definition truthy (v : JValue) : bool :=
  match v with
  | JUndefined | JNull => false
  | JBool b => b
  | JNum n => negb (n =? 0)
  | JStr s => negb (s =? "")%string
  | JArr _ | JObj _ => true
  end.

Definition nullish (v : JValue) : bool :=
  match v with
  | JUndefined | JNull => true
  | _ => false
  end.

Fixpoint lookup (k : string) (fields : list (string * JValue)) : JValue :=
  match fields with
  | [] => JUndefined
  | (k', v) :: rest => if (k =? k')%string then v else lookup k rest
  end.

(** [v.k] on a value that is neither [undefined] nor [null].  Strings and
    arrays answer [length]; only whether it is zero is ever observed. *)
Definition prop (v : JValue) (k : string) : JValue :=
  match v with
  | JObj fields => lookup k fields
  | JArr xs => if (k =? "length")%string then JNum (Z.of_nat (List.length xs)) else JUndefined
  | JStr s => if (k =? "length")%string then JNum (Z.of_nat (String.length s)) else JUndefined
  | _ => JUndefined
  end.

(** [v[0]] on a value that is neither [undefined] nor [null]. *)
Definition first (v : JValue) : JValue :=
  match v with
  | JArr xs => match xs with x :: _ => x | [] => JUndefined end
  | JStr s => match s with String c _ => JStr (String c "") | EmptyString => JUndefined end
  | JObj fields => lookup "0" fields
  | _ => JUndefined
  end.

Definition isArray (v : JValue) : bool :=
  match v with JArr _ => true | _ => false end.

(** [a === b].  Objects and arrays compare by identity; the code compares
    against primitive literals only, where they are never equal. *)
Definition strict_eq (a b : JValue) : bool :=
  match a, b with
  | JUndefined, JUndefined => true
  | JNull, JNull => true
  | JBool x, JBool y => Bool.eqb x y
  | JNum x, JNum y => x =? y
  | JStr x, JStr y => (x =? y)%string
  | _, _ => false
  end.

Definition show_Z (n : Z) : string := NilZero.string_of_int (Z.to_int n).

(** String conversion, as performed by a template literal. *)
Fixpoint toString (v : JValue) : string :=
  match v with
  | JUndefined => "undefined"
  | JNull => "null"
  | JBool true => "true"
  | JBool false => "false"
  | JNum n => show_Z n
  | JStr s => s
  | JArr xs =>
      String.concat ","
        (map (fun x => match x with
                       | JUndefined | JNull => ""
                       | _ => toString x
                       end) xs)
  | JObj _ => "[object Object]"
  end.

(** [ToPrimitive] throws a TypeError on an object that has a [toString] key
    of its own: a parsed value is never callable, so neither [toString] nor
    [valueOf] yields a primitive.  An array is converted by joining its
    elements and throws when one of them does.  [toString] above gives the
    string of the values that convert. *)
Fixpoint unprintable (v : JValue) : bool :=
  match v with
  | JObj fields => existsb (fun kv => (fst kv =? "toString")%string) fields
  | JArr xs => existsb unprintable xs
  | _ => false
  end.

(** A [process.env] entry or an optional header: a string or [undefined]. *)
Definition tpl (o : option string) : string :=
  match o with Some s => s | None => "undefined" end.

(** [o || dflt] for an optional string. *)
Definition or_default (o : option string) (dflt : string) : string :=
  match o with
  | Some s => if (s =? "")%string then dflt else s
  | None => dflt
  end.

(** ** Errors, HTTP messages and the world *)

Record JsError : Type := mkError { name : string; message : string }.

Definition Error (msg : string) : JsError := mkError "Error" msg.
Definition TypeError (msg : string) : JsError := mkError "TypeError" msg.
Definition SyntaxError (msg : string) : JsError := mkError "SyntaxError" msg.
Definition FetchError (msg : string) : JsError := mkError "FetchError" msg.

Inductive Body : Type :=
| NoBody
| Form (params : list (string * string))   (* URLSearchParams *)
| JsonText (v : JValue).                   (* JSON.stringify(v) *)

Record Request : Type := mkRequest {
  url : string;
  method : string;
  headers : list (string * string);
  body : Body
}.

(** What [fetch] resolves to: [ok], the body read by [text()], and the
    document read by [json()] ([None] when the body is not JSON). *)
Record Response : Type := mkResponse {
  ok : bool;
  text : string;
  json : option JValue
}.

(** The remote side's answer to one request.  The remote handles the request
    [uplink] milliseconds after it was sent and the answer arrives [downlink]
    milliseconds later; [result = None] is a transport failure, on which
    [fetch] rejects. *)
Record Reply : Type := mkReply {
  uplink : N;
  downlink : N;
  result : option Response
}.

Record Exchange : Type := mkExchange {
  request : Request;
  sent_at : Z;
  reply : Reply
}.

Inductive LogArg : Type :=
| LText (s : string)
| LValue (v : JValue)
| LError (e : JsError).

Record HttpRequest : Type := mkHttpRequest {
  authorization : option string;   (* req.headers.authorization *)
  req_body : JValue                (* req.body *)
}.

Record HttpResponse : Type := mkHttpResponse {
  status : Z;
  sent_json : JValue
}.

Record World : Type := mkWorld {
  cachedToken : JValue;
  cachedTokenExpiresAt : option Z;     (* [None] is NaN *)
  clock : Z;                           (* milliseconds, as Date.now() *)
  trace : list Exchange;               (* oldest first *)
  console : list (string * LogArg)     (* oldest first *)
}.

(** Module initialisation: [let cachedToken = null; let cachedTokenExpiresAt = 0]. *)
Definition boot (t : Z) : World :=
  mkWorld JNull (Some 0) t [] [].

(** Time passing between two requests. *)
Definition later (d : N) (w : World) : World :=
  mkWorld (cachedToken w) (cachedTokenExpiresAt w) (clock w + Z.of_N d)
          (trace w) (console w).

(** ** The monad of handlers *)

Inductive Outcome (A : Type) : Type :=
| Normal (a : A)              (* evaluation goes on with a value *)
| Throws (e : JsError)        (* an exception propagates *)
| Sends (r : HttpResponse).   (* the response was sent and the handler left *)

Arguments Normal {A} a.
Arguments Throws {A} e.
Arguments Sends {A} r.

Definition M (A : Type) : Type := World -> Outcome A * World.

Definition ret {A} (a : A) : M A := fun w => (Normal a, w).

Definition bind {A B} (m : M A) (k : A -> M B) : M B :=
  fun w =>
    match m w with
    | (Normal a, w') => k a w'
    | (Throws e, w') => (Throws e, w')
    | (Sends r, w') => (Sends r, w')
    end.

Declare Scope js_scope.
Delimit Scope js_scope with js.
Notation "x <- m ;; k" := (bind m (fun x => k))
  (at level 100, m at next level, right associativity) : js_scope.
Notation "m ;;; k" := (bind m (fun _ => k))
  (at level 100, right associativity) : js_scope.
Open Scope js_scope.

Definition throw {A} (e : JsError) : M A := fun w => (Throws e, w).

(** The response goes out and the handler is left. *)
Definition send {A} (r : HttpResponse) : M A := fun w => (Sends r, w).

(** [return res.status(code).json(v)] *)
Definition respond {A} (code : Z) (v : JValue) : M A :=
  send (mkHttpResponse code v).

(** [try { m } catch (err) { h err }] *)
Definition try_catch {A} (m : M A) (h : JsError -> M A) : M A :=
  fun w =>
    match m w with
    | (Throws e, w') => h e w'
    | other => other
    end.

(** [if (c) { m }], where [m] ends by leaving the handler *)
Definition when (c : bool) (m : M unit) : M unit := if c then m else ret tt.

Definition Date_now : M Z := fun w => (Normal (clock w), w).

Definition console_error (msg : string) (arg : LogArg) : M unit :=
  fun w =>
    (Normal tt,
     mkWorld (cachedToken w) (cachedTokenExpiresAt w) (clock w) (trace w)
             (console w ++ [(msg, arg)])).

Definition read_cachedToken : M JValue := fun w => (Normal (cachedToken w), w).
Definition read_cachedTokenExpiresAt : M (option Z) :=
  fun w => (Normal (cachedTokenExpiresAt w), w).

Definition write_cachedToken (v : JValue) : M unit :=
  fun w =>
    (Normal tt,
     mkWorld v (cachedTokenExpiresAt w) (clock w) (trace w) (console w)).

Definition write_cachedTokenExpiresAt (t : option Z) : M unit :=
  fun w =>
    (Normal tt, mkWorld (cachedToken w) t (clock w) (trace w) (console w)).

(** [v.k], which throws on [undefined] and [null]. *)
Definition getProp (v : JValue) (k : string) : M JValue :=
  if nullish v
  then throw (TypeError ("Cannot read properties of " ++ toString v))
  else ret (prop v k).

(** [${v}] in a template literal: the text of [v], or the TypeError of
    [ToPrimitive]. *)
Definition template (v : JValue) : M string :=
  if unprintable v
  then throw (TypeError "Cannot convert object to primitive value")
  else ret (toString v).

Definition res_text (r : Response) : M string := ret (text r).

Definition res_json (r : Response) : M JValue :=
  match json r with
  | Some v => ret v
  | None => throw (SyntaxError "Unexpected token in JSON")
  end.

(** ** The program *)

(** [process.env]: every entry is a string or [undefined]. *)
Record Env : Type := mkEnv {
  env_BC_TENANT_ID : option string;
  env_BC_CLIENT_ID : option string;
  env_BC_CLIENT_SECRET : option string;
  env_BC_ENV : option string;
  env_BC_COMPANY_ID : option string;
  env_BC_SCOPE : option string;
  env_JWT_SECRET : option string;
  env_BC_PORTAL_CUSTOMER_NO : option string
}.

Record PortalUser : Type := mkPortalUser {
  id : Z;
  email : string;
  password : string;
  bcCustomerNo : string
}.

(** Demo portal users (map to real BC customers) *)
Definition PORTAL_USERS : list PortalUser :=
  [ mkPortalUser 1 "Robertos-Rest" "Rest1234" "CUST-00466";
    mkPortalUser 2 "Robertos-Roslyn" "Ros1234" "CUST-00232" ].

(** What the process is given from outside: its environment, the remote
    services, and the library functions the code calls. *)
Class Host : Type := mkHost {
  (** [process.env] *)
  process_env : Env;
  (** The remote services: the answer to a request, given the exchanges so
      far and the time the request is sent. *)
  upstream : list Exchange -> Z -> Request -> Reply;
  (** The jsonwebtoken library: [jwt.sign payload secret expiresIn] at a
      clock reading, and [jwt.verify token secret] at a clock reading, which
      returns the decoded payload or throws. *)
  jwt_sign : JValue -> string -> string -> Z -> string;
  jwt_verify : string -> string -> Z -> JsError + JValue;
  (** ECMAScript [StringToNumber] and [Date.prototype.toISOString]. *)
  StringToNumber : string -> option Z;
  toISOString : Z -> string
}.

Section Backend.

Context {host : Host}.

(* -------------------- CONFIG -------------------- *)

Definition BC_TENANT_ID := env_BC_TENANT_ID process_env.
Definition BC_CLIENT_ID := env_BC_CLIENT_ID process_env.
Definition BC_CLIENT_SECRET := env_BC_CLIENT_SECRET process_env.
Definition BC_ENV := env_BC_ENV process_env.
Definition BC_COMPANY_ID := env_BC_COMPANY_ID process_env.
Definition BC_SCOPE : string :=
  or_default (env_BC_SCOPE process_env)
             "https://api.businesscentral.dynamics.com/.default".
Definition JWT_SECRET : string :=
  or_default (env_JWT_SECRET process_env) "change-me".

Definition BC_BASE_URL : string :=
  "https://api.businesscentral.dynamics.com/v2.0/" ++ tpl BC_TENANT_ID
    ++ "/" ++ tpl BC_ENV ++ "/api/v2.0".
Definition COMPANY_URL : string :=
  BC_BASE_URL ++ "/companies(" ++ tpl BC_COMPANY_ID ++ ")".

(** [await fetch(url, options)] *)
Definition fetch (req : Request) : M Response :=
  fun w =>
    let r := upstream (trace w) (clock w) req in
    let w' :=
      mkWorld (cachedToken w) (cachedTokenExpiresAt w)
              (clock w + Z.of_N (uplink r) + Z.of_N (downlink r))
              (trace w ++ [mkExchange req (clock w) r])
              (console w) in
    match result r with
    | Some resp => (Normal resp, w')
    | None => (Throws (FetchError "request failed"), w')
    end.

(* -------------------- OAUTH TOKEN HELPER -------------------- *)

(** [ToNumber]: a number, NaN ([None]), or the TypeError of [ToPrimitive].
    An object that converts does so to "[object Object]", which is no
    number. *)
Definition toNumber (v : JValue) : JsError + option Z :=
  if unprintable v then inl (TypeError "Cannot convert object to primitive value")
  else
    inr (match v with
         | JUndefined => None
         | JNull => Some 0
         | JBool b => Some (if b then 1 else 0)
         | JNum n => Some n
         | JStr s => StringToNumber s
         | JArr _ => StringToNumber (toString v)
         | JObj _ => None
         end).

(** [now < t] where [t] may be NaN *)
Definition before (now : Z) (t : option Z) : bool :=
  match t with
  | Some t => now <? t
  | None => false
  end.

Definition tokenUrl : string :=
  "https://login.microsoftonline.com/" ++ tpl BC_TENANT_ID
    ++ "/oauth2/v2.0/token".

Definition tokenRequest : Request :=
  mkRequest tokenUrl "POST"
    [("Content-Type", "application/x-www-form-urlencoded")]
    (Form [("grant_type", "client_credentials");
           ("client_id", tpl BC_CLIENT_ID);
           ("client_secret", tpl BC_CLIENT_SECRET);
           ("scope", BC_SCOPE)]).

Definition token_failure_message : string :=
  "Failed to get access token from Azure. Check BC_TENANT_ID / BC_CLIENT_ID / BC_CLIENT_SECRET.".

Definition getAccessToken : M JValue :=
  now <- Date_now ;;
  token <- read_cachedToken ;;
  expiresAt <- read_cachedTokenExpiresAt ;;
  if truthy token && before now expiresAt then ret token
  else
    res <- fetch tokenRequest ;;
    if negb (ok res) then
      text <- res_text res ;;
      console_error "❌ Error getting access token from Azure:" (LText text) ;;;
      throw (Error token_failure_message)
    else
      data <- res_json res ;;
      access_token <- getProp data "access_token" ;;
      write_cachedToken access_token ;;;
      expires_in <- getProp data "expires_in" ;;
      let expiresInSec := if truthy expires_in then expires_in else JNum 3600 in
      match toNumber expiresInSec with
      | inl err => throw err
      | inr n =>
          write_cachedTokenExpiresAt
            (match n with
             | Some n => Some (now + (n - 60) * 1000)   (* refresh 1 min early *)
             | None => None
             end) ;;;
          read_cachedToken
      end.

Definition getBcAuthHeader : M string :=
  token <- getAccessToken ;;
  text <- template token ;;
  ret ("Bearer " ++ text).

(* -------------------- AUTH MIDDLEWARE -------------------- *)

(** [authHeader.startsWith("Bearer ") ? authHeader.slice(7) : null] *)
Definition bearer (authHeader : string) : option string :=
  if String.prefix "Bearer " authHeader
  then Some (String.substring 7 (String.length authHeader - 7) authHeader)
  else None.

(** Returns the payload stored in [req.user] when [next()] is reached; the
    route handler is the continuation.  The handlers are [async] functions,
    so nothing they throw reaches this [try].  [!token] holds for [null]
    and for the empty string. *)
Definition authMiddleware (req : HttpRequest) : M JValue :=
  let authHeader := or_default (authorization req) "" in
  match bearer authHeader with
  | None => respond 401 (JObj [("error", JStr "No token provided")])
  | Some token =>
      if (token =? "")%string
      then respond 401 (JObj [("error", JStr "No token provided")])
      else
        now <- Date_now ;;
        match jwt_verify token JWT_SECRET now with
        | inr payload => ret payload
        | inl err =>
            console_error "JWT error:" (LError err) ;;;
            respond 401 (JObj [("error", JStr "Invalid or expired token")])
        end
  end.

(* -------------------- ROUTES -------------------- *)

(** POST /login *)
Definition login (req : HttpRequest) : M unit :=
  email' <- getProp (req_body req) "email" ;;
  password' <- getProp (req_body req) "password" ;;
  match find (fun u => strict_eq (JStr (email u)) email'
                       && strict_eq (JStr (password u)) password')
             PORTAL_USERS with
  | None => respond 401 (JObj [("error", JStr "Invalid email or password")])
  | Some user =>
      let payload :=
        JObj [("id", JNum (id user));
              ("email", JStr (email user));
              ("bcCustomerNo", JStr (bcCustomerNo user))] in
      now <- Date_now ;;
      let token := jwt_sign payload JWT_SECRET "8h" now in
      respond 200
        (JObj [("token", JStr token);
               ("user", JObj [("email", JStr (email user))])])
  end.

Definition apiHeaders (authHeader : string) : list (string * string) :=
  [("Authorization", authHeader); ("Content-Type", "application/json")].

(** The customer number used by POST /order. *)
Definition customerNo (user : JValue) : JValue :=
  if truthy user && truthy (prop user "bcCustomerNo")
  then prop user "bcCustomerNo"
  else JStr (or_default (env_BC_PORTAL_CUSTOMER_NO process_env) "C00010").

(** The customer number in a URL, for a number that converts to text, as
    every number signed by POST /login and the fallback do. *)
Definition customerUrl (customerNo : JValue) : string :=
  COMPANY_URL ++ "/customers?$filter=number eq '" ++ toString customerNo ++ "'".
Definition createOrderUrl : string := COMPANY_URL ++ "/salesOrders".
Definition lineUrl : string := COMPANY_URL ++ "/salesOrderLines".

Definition customerRequest (authHeader : string) (customerNo : JValue)
  : Request :=
  mkRequest (customerUrl customerNo) "GET" (apiHeaders authHeader) NoBody.

Definition createOrderRequest (authHeader : string) (customerId : JValue)
           (now : Z) : Request :=
  mkRequest createOrderUrl "POST" (apiHeaders authHeader)
    (JsonText
       (JObj [("customerId", customerId);
              ("orderDate", JStr (String.substring 0 10 (toISOString now)));
              ("externalDocumentNumber", JStr ("WEB-" ++ show_Z now))])).

Definition lineRequest (authHeader : string) (orderId line : JValue) : Request :=
  mkRequest lineUrl "POST" (apiHeaders authHeader)
    (JsonText (JObj [("documentId", orderId);
                     ("lineType", JStr "Item");
                     ("itemId", prop line "id");
                     ("quantity", prop line "quantity")])).

Definition line_failure : HttpResponse :=
  mkHttpResponse 500 (JObj [("error", JStr "Failed to add an order line in BC.")]).

(** 1. Look up customer by number -> get GUID *)
Definition lookupCustomer (authHeader : string) (customerNo : JValue)
  : M JValue :=
  custRes <- fetch (customerRequest authHeader customerNo) ;;
  when (negb (ok custRes))
    (text <- res_text custRes ;;
     console_error "❌ BC customer lookup error:" (LText text) ;;;
     respond 500 (JObj [("error", JStr "Failed to look up customer in BC.")])) ;;;
  custData <- res_json custRes ;;
  value <- getProp custData "value" ;;
  when (negb (truthy value) || strict_eq (prop value "length") (JNum 0))
    (console_error "❌ Customer not found by number:" (LValue customerNo) ;;;
     respond 400
       (JObj [("error",
               JStr ("Customer number " ++ toString customerNo
                     ++ " not found in this company."))])) ;;;
  getProp (first value) "id".

(** 2. Create order header using customerId *)
Definition createOrderHeader (authHeader : string) (customerId : JValue)
  : M JValue :=
  now <- Date_now ;;
  orderRes <- fetch (createOrderRequest authHeader customerId now) ;;
  when (negb (ok orderRes))
    (text <- res_text orderRes ;;
     console_error "❌ BC create order error:" (LText text) ;;;
     respond 500 (JObj [("error", JStr "Failed to create order header in BC.")])) ;;;
  res_json orderRes.

(** One turn of [for (const line of lines)]; [continue] ends the turn. *)
Definition addLine (authHeader : string) (orderId line : JValue) : M unit :=
  line_id <- getProp line "id" ;;
  if negb (truthy line_id) then ret tt
  else
    quantity <- getProp line "quantity" ;;
    if negb (truthy quantity) then ret tt
    else
      lineRes <- fetch (lineRequest authHeader orderId line) ;;
      when (negb (ok lineRes))
        (text <- res_text lineRes ;;
         console_error "❌ BC add line error:" (LText text) ;;;
         send line_failure).

(** 3. Add lines - use itemId (GUID) *)
Fixpoint addLines (authHeader : string) (orderId : JValue)
         (lines : list JValue) : M unit :=
  match lines with
  | [] => ret tt
  | line :: rest =>
      addLine authHeader orderId line ;;; addLines authHeader orderId rest
  end.

(** The elements a [for .. of] loop visits on an array. *)
Definition elements (v : JValue) : list JValue :=
  match v with JArr xs => xs | _ => [] end.

Definition order_created (number : JValue) (text : string) : HttpResponse :=
  mkHttpResponse 200
    (JObj [("success", JBool true);
           ("bcOrderNo", number);
           ("message", JStr ("Order " ++ text ++ " created in BC."))]).

(** POST /order, after the session check. *)
Definition order_handler (req : HttpRequest) (user : JValue) : M unit :=
  try_catch
    (let customerNo := customerNo user in
     lines <- getProp (req_body req) "lines" ;;
     when (negb (truthy lines) || negb (isArray lines)
           || strict_eq (prop lines "length") (JNum 0))
       (respond 400 (JObj [("error", JStr "No order lines provided.")])) ;;;
     authHeader <- getBcAuthHeader ;;
     customerId <- lookupCustomer authHeader customerNo ;;
     order <- createOrderHeader authHeader customerId ;;
     orderId <- getProp order "id" ;;
     addLines authHeader orderId (elements lines) ;;;
     number <- getProp order "number" ;;
     text <- template number ;;
     send (order_created number text))
    (fun err =>
       console_error "❌ Error in /order:" (LError err) ;;;
       respond 500 (JObj [("error", JStr "Server error creating order.")])).

Fixpoint mapM {A B} (f : A -> M B) (xs : list A) : M (list B) :=
  match xs with
  | [] => ret []
  | x :: rest => y <- f x ;; ys <- mapM f rest ;; ret (y :: ys)
  end.

(** [v.map(f)]: only arrays have the method. *)
Definition array_map (f : JValue -> M JValue) (v : JValue) : M JValue :=
  match v with
  | JArr xs => ys <- mapM f xs ;; ret (JArr ys)
  | _ => throw (TypeError (toString v ++ ".map is not a function"))
  end.

(** The orders of a customer, for a number that converts to text. *)
Definition ordersUrl (customerNo : JValue) : string :=
  COMPANY_URL ++ "/salesOrders?$filter=customerNumber eq '"
    ++ toString customerNo ++ "'&$orderby=orderDate desc".

(** GET /orders, after the session check. *)
Definition orders_handler (req : HttpRequest) (user : JValue) : M unit :=
  try_catch
    (customerNo <- getProp user "bcCustomerNo" ;;
     authHeader <- getBcAuthHeader ;;
     response <- fetch (mkRequest (ordersUrl customerNo) "GET"
                                  (apiHeaders authHeader) NoBody) ;;
     if negb (ok response) then
       text <- res_text response ;;
       console_error "❌ BC /orders error:" (LText text) ;;;
       respond 500 (JObj [("error", JStr "Failed to load orders from BC.")])
     else
       data <- res_json response ;;
       value <- getProp data "value" ;;
       orders <- array_map
                   (fun o =>
                      number <- getProp o "number" ;;
                      ret (JObj [("number", number);
                                 ("orderDate", prop o "orderDate");
                                 ("status", prop o "status");
                                 ("totalAmount", prop o "totalAmountIncludingTax")]))
                   value ;;
       respond 200 orders)
    (fun err =>
       console_error "❌ Error in /orders:" (LError err) ;;;
       respond 500 (JObj [("error", JStr "Server error loading orders.")])).

(** [a || b] *)
Definition js_or (a b : JValue) : JValue := if truthy a then a else b.

Definition itemsRequest (authHeader : string) : Request :=
  mkRequest (COMPANY_URL ++ "/items") "GET" (apiHeaders authHeader) NoBody.

(** GET /items - list items for portal (no auth) *)
Definition get_items : M unit :=
  try_catch
    (authHeader <- getBcAuthHeader ;;
     response <- fetch (itemsRequest authHeader) ;;
     if negb (ok response) then
       text <- res_text response ;;
       console_error "❌ BC /items error:" (LText text) ;;;
       respond 500 (JObj [("error", JStr "Failed to load items from BC.")])
     else
       data <- res_json response ;;
       value <- getProp data "value" ;;
       items <- array_map
                  (fun item =>
                     item_id <- getProp item "id" ;;
                     ret (JObj [("id", item_id);
                                ("no", prop item "number");
                                ("name", prop item "displayName");
                                ("price", prop item "unitPrice");
                                ("inventory", prop item "inventory");
                                ("gtin",
                                 js_or (js_or (js_or (js_or (prop item "gtin")
                                                            (prop item "GTIN"))
                                                     (prop item "gtinCode"))
                                              (prop item "GTINCode"))
                                       JNull)]))
                  value ;;
       respond 200 items)
    (fun err =>
       console_error "❌ Error in /items:" (LError err) ;;;
       respond 500 (JObj [("error", JStr "Server error loading items.")])).

(** [app.post("/order", authMiddleware, handler)] and
    [app.get("/orders", authMiddleware, handler)] *)
Definition post_order (req : HttpRequest) : M unit :=
  user <- authMiddleware req ;; order_handler req user.

Definition get_orders (req : HttpRequest) : M unit :=
  user <- authMiddleware req ;; orders_handler req user.

End Backend.

(** ** Observations on worlds *)

(** The world in which [fetch req] resumes: the reply [r] has arrived. *)
Definition arrived (req : Request) (r : Reply) (w : World) : World :=
  mkWorld (cachedToken w) (cachedTokenExpiresAt w)
          (clock w + Z.of_N (uplink r) + Z.of_N (downlink r))
          (trace w ++ [mkExchange req (clock w) r])
          (console w).

(** A cached token is present and the clock is strictly before its expiry. *)
Definition fresh (w : World) : bool :=
  truthy (cachedToken w) && before (clock w) (cachedTokenExpiresAt w).

(** [needle] occurs in [hay]. *)
Definition occurs (needle hay : string) : bool :=
  match String.index 0 needle hay with
  | Some _ => true
  | None => false
  end.

(** An error object carries a text when its message contains it. *)
Definition carries (e : JsError) (s : string) : bool := occurs s (message e).

(** ** What the identity provider has granted

    The credentials the provider stands behind are read off the trace: a
    success response to the token request that carries a credential and
    reports a lifetime of [L] seconds makes that credential valid until [L]
    seconds after the provider handled the request. *)

Definition grant_of `{Host} (x : Exchange) : option (JValue * Z) :=
  if (url (request x) =? tokenUrl)%string then
    match result (reply x) with
    | Some res =>
        if ok res then
          match json res with
          | Some data =>
              match prop data "expires_in" with
              | JNum L =>
                  Some (prop data "access_token",
                        sent_at x + Z.of_N (uplink (reply x)) + L * 1000)
              | _ => None
              end
          | None => None
          end
        else None
    | None => None
    end
  else None.

(** The provider accepts [tok] up to time [t]. *)
Definition honoured `{Host} (w : World) (tok : JValue) (t : Z) : Prop :=
  exists x until,
    In x (trace w) /\ grant_of x = Some (tok, until) /\ t <= until.

Definition safety_margin : Z := 60 * 1000.

(** Whatever the cache would serve has a margin left at its recorded expiry. *)
Definition cache_backed `{Host} (w : World) : Prop :=
  forall e,
    truthy (cachedToken w) = true ->
    cachedTokenExpiresAt w = Some e ->
    honoured w (cachedToken w) (e + safety_margin).

(** The answer the provider would give now, if it is a success, reports a
    lifetime. *)
Definition lifetime_reported `{Host} (w : World) : Prop :=
  forall res data,
    result (upstream (trace w) (clock w) tokenRequest) = Some res ->
    ok res = true -> json res = Some data ->
    exists L, prop data "expires_in" = JNum L /\ L <> 0.

(** The contract of the jsonwebtoken library on the payloads this server
    signs: a token signed for eight hours verifies under the same secret
    until it expires, and yields the payload with [iat] and [exp] added. *)
Definition jwt_sound `{Host} : Prop :=
  forall (i : Z) (e c secret : string) (now t : Z),
    t / 1000 < now / 1000 + 28800 ->
    jwt_verify
      (jwt_sign (JObj [("id", JNum i); ("email", JStr e); ("bcCustomerNo", JStr c)])
                secret "8h" now)
      secret t
    = inr (JObj [("id", JNum i); ("email", JStr e); ("bcCustomerNo", JStr c);
                 ("iat", JNum (now / 1000));
                 ("exp", JNum (now / 1000 + 28800))]).

(** ** Observations on requests to the protected routes *)

(** The request carries no session the middleware accepts at time [now]:
    no [Authorization] header, no bearer token in it, or a bearer token that
    [jwt.verify] rejects (bad signature, expired). *)
Definition session_rejected `{Host} (req : HttpRequest) (now : Z) : Prop :=
  match authorization req with
  | None => True
  | Some h =>
      match bearer h with
      | None => True
      | Some token =>
          token = "" \/ exists err, jwt_verify token JWT_SECRET now = inl err
      end
  end.

(** The loop leaves a line out: its [id] or its [quantity] is absent or
    falsy. *)
Definition skipped (line : JValue) : bool :=
  negb (truthy (prop line "id")) || negb (truthy (prop line "quantity")).

(** An exchange that tried to create an order line and was answered by a
    response that is not a success. *)
Definition failed_line `{Host} (x : Exchange) : bool :=
  (url (request x) =? lineUrl)%string
  && match result (reply x) with
     | Some res => negb (ok res)
     | None => false
     end.

(** Every run of [m] only appends to the trace, and an exchange in which the
    creation of a line failed is the last one of the run, which then ends by
    sending [line_failure]. *)
Definition tidy `{Host} {A} (m : M A) : Prop :=
  forall w out w',
    m w = (out, w') ->
    exists more,
      trace w' = (trace w ++ more)%list
      /\ forall pre x post,
           more = (pre ++ x :: post)%list ->
           failed_line x = true ->
           post = [] /\ out = Sends line_failure.

(** ** Sequences of calls and views of upstream records *)

(** The world after calls of [getAccessToken] separated by the delays
    [ds]. *)
Fixpoint calls `{Host} (ds : list N) (w : World) : World :=
  match ds with
  | [] => w
  | d :: rest => calls rest (snd (getAccessToken (later d w)))
  end.

(** Every success the identity provider ever answers reports a lifetime. *)
Definition reports_lifetimes `{Host} : Prop :=
  forall history t res data,
    result (upstream history t tokenRequest) = Some res ->
    ok res = true -> json res = Some data ->
    exists L, prop data "expires_in" = JNum L /\ L <> 0.


Definition item_gtin (item : JValue) : JValue :=
  js_or (js_or (js_or (js_or (prop item "gtin") (prop item "GTIN"))
                      (prop item "gtinCode"))
               (prop item "GTINCode"))
        JNull.

Definition item_summary (item : JValue) : JValue :=
  JObj [("id", prop item "id");
        ("no", prop item "number");
        ("name", prop item "displayName");
        ("price", prop item "unitPrice");
        ("inventory", prop item "inventory");
        ("gtin", item_gtin item)].

(** The line is sent: its [id] and its [quantity] are truthy. *)
Definition wanted (line : JValue) : bool := negb (skipped line).

(** The answers a route gives: 200, or 400, 401 or 500 with a body that is
    one [error] string. *)
Definition well_formed (r : HttpResponse) : Prop :=
  status r = 200
  \/ ((status r = 400 \/ status r = 401 \/ status r = 500)
      /\ exists msg, sent_json r = JObj [("error", JStr msg)]).

(** A [Sends] of [m] is well formed. *)
Definition passing {A} (m : M A) : Prop :=
  forall w r w', m w = (Sends r, w') -> well_formed r.

(** [m] never returns normally, and what it sends is well formed. *)
Definition closing {A} (m : M A) : Prop :=
  passing m /\ forall w a w', m w <> (Normal a, w').

(** [m] always sends a well-formed answer. *)
Definition answering {A} (m : M A) : Prop :=
  forall w, exists r w', m w = (Sends r, w') /\ well_formed r.

(** Every run of [m] only appends exchanges that satisfy [P]. *)
Definition adds_only {A} (P : Exchange -> Prop) (m : M A) : Prop :=
  forall w out w',
    m w = (out, w') ->
    exists more, trace w' = (trace w ++ more)%list /\ Forall P more.

(** The world after [console.error(msg, arg)]. *)
Definition logged (msg : string) (arg : LogArg) (w : World) : World :=
  snd (console_error msg arg w).

(** An exchange with the ERP under the bearer header [a]: a GET or a POST
    that carries [a] as its [Authorization]. *)
Definition erp_call (a : string) (x : Exchange) : Prop :=
  headers (request x) = [("Authorization", a); ("Content-Type", "application/json")]
  /\ (method (request x) = "GET" \/ method (request x) = "POST").

(** ** A concrete host, on which the properties below are exercised *)

Module Demo.

Definition env : Env :=
  mkEnv (Some "contoso") (Some "portal-client") (Some "s3cr3t")
        (Some "Production") (Some "9f1c") None None None.

(** A token format with length-prefixed fields:
    secret, id, email, bcCustomerNo, iat, exp. *)
Fixpoint ticks (n : nat) : string :=
  match n with
  | O => ""
  | S n => String "1" (ticks n)
  end.

Definition frame (s rest : string) : string :=
  ticks (String.length s) ++ String "0" (s ++ rest).

Fixpoint split_at (n : nat) (s : string) : option (string * string) :=
  match n with
  | O => Some ("", s)
  | S n =>
      match s with
      | String c rest =>
          match split_at n rest with
          | Some (a, b) => Some (String c a, b)
          | None => None
          end
      | EmptyString => None
      end
  end.

Fixpoint unframe_from (n : nat) (s : string) : option (string * string) :=
  match s with
  | String c rest =>
      if (c =? "1")%char then unframe_from (S n) rest
      else if (c =? "0")%char then split_at n rest
      else None
  | EmptyString => None
  end.

Definition unframe : string -> option (string * string) := unframe_from 0.

Definition parse_Z (s : string) : option Z :=
  option_map Z.of_int (NilZero.int_of_string s).

Definition sign (payload : JValue) (secret expiresIn : string) (now : Z)
  : string :=
  match prop payload "id", prop payload "email", prop payload "bcCustomerNo" with
  | JNum i, JStr e, JStr c =>
      let iat := now / 1000 in
      let exp := iat + (if (expiresIn =? "8h")%string then 28800 else 0) in
      frame secret (frame (show_Z i) (frame e (frame c
        (frame (show_Z iat) (frame (show_Z exp) "")))))
  | _, _, _ => ""
  end.

Definition invalid : JsError := mkError "JsonWebTokenError" "invalid token".
Definition expired : JsError := mkError "TokenExpiredError" "jwt expired".

Definition verify (token secret : string) (now : Z) : JsError + JValue :=
  match unframe token with
  | Some (key, s1) =>
  match unframe s1 with
  | Some (i, s2) =>
  match unframe s2 with
  | Some (e, s3) =>
  match unframe s3 with
  | Some (c, s4) =>
  match unframe s4 with
  | Some (iat, s5) =>
  match unframe s5 with
  | Some (exp, _) =>
      match parse_Z i, parse_Z iat, parse_Z exp with
      | Some i, Some iat, Some exp =>
          if negb (key =? secret)%string then inl invalid
          else if now / 1000 <? exp then
            inr (JObj [("id", JNum i); ("email", JStr e);
                       ("bcCustomerNo", JStr c);
                       ("iat", JNum iat); ("exp", JNum exp)])
          else inl expired
      | _, _, _ => inl invalid
      end
  | None => inl invalid end
  | None => inl invalid end
  | None => inl invalid end
  | None => inl invalid end
  | None => inl invalid end
  | None => inl invalid end.

Definition ok_json (v : JValue) : Reply :=
  mkReply 20 20 (Some (mkResponse true "" (Some v))).

Definition refused (text : string) : Reply :=
  mkReply 20 20 (Some (mkResponse false text None)).

Definition granted (tok : string) (lifetime : Z) : Reply :=
  mkReply 0 0
    (Some (mkResponse true ""
             (Some (JObj [("access_token", JStr tok);
                          ("expires_in", JNum lifetime)])))).

(** The remote side: the identity provider answers [token_reply]; the ERP
    finds one customer, creates order SO-1001 and accepts a line unless
    its quantity is 13. *)
Definition remote (token_reply : Reply)
           (history : list Exchange) (t : Z) (req : Request) : Reply :=
  match body req with
  | Form _ => token_reply
  | NoBody => ok_json (JObj [("value", JArr [JObj [("id", JStr "c-7f3a")]])])
  | JsonText v =>
      match prop v "lineType" with
      | JStr _ =>
          if strict_eq (prop v "quantity") (JNum 13)
          then refused "Item is blocked."
          else ok_json (JObj [("sequence", JNum 10000)])
      | _ => ok_json (JObj [("id", JStr "o-41d2"); ("number", JStr "SO-1001")])
      end
  end.

Definition host_in (e : Env) (token_reply : Reply) : Host :=
  mkHost e (remote token_reply) sign verify parse_Z
         (fun _ => "2026-01-01T00:00:00.000Z").

Definition host : Reply -> Host := host_in env.

(** The same environment with [BC_PORTAL_CUSTOMER_NO=] left empty. *)
Definition env_blank : Env :=
  mkEnv (Some "contoso") (Some "portal-client") (Some "s3cr3t")
        (Some "Production") (Some "9f1c") None None (Some "").

(** An identity provider that grants "tok-1" for an hour, one that
    refuses the client, and one that grants for thirty seconds. *)
Definition h : Host := host (granted "tok-1" 3600).
Definition denial : string := "AADSTS7000215: Invalid client secret provided.".
Definition h_refusing : Host := host (refused denial).
Definition h_blank : Host := host_in env_blank (granted "tok-1" 3600).

Definition w0 : World := boot 1000.

(** The world after a first call of [getAccessToken]. *)
Definition w1 : World := snd (@getAccessToken h w0).

(** A session of the first portal user, and one of a guest without a
    customer number, both signed at time 1000. *)
Definition session : string :=
  sign (JObj [("id", JNum 1); ("email", JStr "Robertos-Rest");
              ("bcCustomerNo", JStr "CUST-00466")])
       "change-me" "8h" 1000.

Definition user : JValue :=
  JObj [("id", JNum 1); ("email", JStr "Robertos-Rest");
        ("bcCustomerNo", JStr "CUST-00466");
        ("iat", JNum 1); ("exp", JNum 28801)].

Definition guest_session : string :=
  sign (JObj [("id", JNum 7); ("email", JStr "guest"); ("bcCustomerNo", JStr "")])
       "change-me" "8h" 1000.

Definition guest : JValue :=
  JObj [("id", JNum 7); ("email", JStr "guest"); ("bcCustomerNo", JStr "");
        ("iat", JNum 1); ("exp", JNum 28801)].

Definition order_request (token : string) (lines : JValue) : HttpRequest :=
  mkHttpRequest (Some ("Bearer " ++ token)) (JObj [("lines", lines)]).

(** An order of the guest. *)
Definition guest_order : HttpRequest :=
  order_request guest_session
                (JArr [JObj [("id", JStr "i-1"); ("no", JStr "1000");
                             ("quantity", JNum 2)]]).

Definition line (item : string) (quantity : Z) : JValue :=
  JObj [("id", JStr item); ("no", JStr "1000"); ("quantity", JNum quantity)].

(** An order whose second line the ERP refuses. *)
Definition blocked_order : HttpRequest :=
  order_request session (JArr [line "i-1" 2; line "i-2" 13; line "i-3" 1]).

(** An order none of whose lines is sent. *)
Definition idle_lines : list JValue :=
  [line "i-1" 0; JObj [("no", JStr "1000"); ("quantity", JNum 4)]; line "" 5].

Definition authHeader : string := "Bearer tok-1".
Definition customerId : JValue := JStr "c-7f3a".
Definition order : JValue :=
  JObj [("id", JStr "o-41d2"); ("number", JStr "SO-1001")].

Definition w2 : World :=
  snd (@lookupCustomer h authHeader (JStr "CUST-00466") w1).
Definition w3 : World := snd (@createOrderHeader h authHeader customerId w2).

(** Identity providers that grant without reporting a lifetime, that report
    one that is no number, and that answer a page that is no JSON. *)
Definition granted_plain (tok : string) : Reply :=
  mkReply 0 0 (Some (mkResponse true "" (Some (JObj [("access_token", JStr tok)])))).
Definition granted_odd (tok : string) : Reply :=
  mkReply 0 0
    (Some (mkResponse true ""
             (Some (JObj [("access_token", JStr tok); ("expires_in", JObj [])])))).
Definition garbled : Reply :=
  mkReply 20 20 (Some (mkResponse true "<html>Service unavailable</html>" None)).

(** One that reports as lifetime an object with a [toString] field. *)
Definition granted_opaque (tok : string) : Reply :=
  mkReply 0 0
    (Some (mkResponse true ""
             (Some (JObj [("access_token", JStr tok);
                          ("expires_in", JObj [("toString", JStr "3600")])])))).

Definition h_plain : Host := host (granted_plain "tok-1").
Definition h_odd : Host := host (granted_odd "tok-1").
Definition h_garbled : Host := host garbled.
Definition h_opaque : Host := host (granted_opaque "tok-1").

(** An ERP whose answers to the GETs and to the header creation are given;
    the identity provider grants "tok-1" for an hour and lines are
    accepted. *)
Definition erp (listing header : Reply)
           (history : list Exchange) (t : Z) (req : Request) : Reply :=
  match body req with
  | Form _ => granted "tok-1" 3600
  | NoBody => listing
  | JsonText v =>
      match prop v "lineType" with
      | JStr _ => ok_json (JObj [("sequence", JNum 10000)])
      | _ => header
      end
  end.

Definition host_of (listing header : Reply) : Host :=
  mkHost env (erp listing header) sign verify parse_Z
         (fun _ => "2026-01-01T00:00:00.000Z").

Definition customers : Reply :=
  ok_json (JObj [("value", JArr [JObj [("id", JStr "c-7f3a")]])]).

Definition h_header_down : Host :=
  host_of customers (refused "Posting date is not within your range.").



Definition catalog : list JValue :=
  [ JObj [("id", JStr "i-1"); ("number", JStr "1000");
          ("displayName", JStr "Olive oil"); ("unitPrice", JNum 12);
          ("inventory", JNum 40); ("gtin", JStr ""); ("GTIN", JStr "5201234000017")];
    JObj [("id", JStr "i-2"); ("number", JStr "1001");
          ("displayName", JStr "Sea salt"); ("unitPrice", JNum 3);
          ("inventory", JNum 0)] ].

Definition h_items : Host :=
  host_of (ok_json (JObj [("value", JArr catalog)])) (ok_json order).



Definition small_order : HttpRequest :=
  order_request session (JArr [line "i-1" 2]).

Definition mixed_lines : list JValue :=
  [line "i-1" 2; line "i-2" 0; line "i-3" 1].
Definition mixed_order : HttpRequest := order_request session (JArr mixed_lines).

Definition null_order : HttpRequest :=
  order_request session (JArr [line "i-1" 2; JNull; line "i-3" 1]).

(** An order whose only line is [null]. *)
Definition void_order : HttpRequest := order_request session (JArr [JNull]).


End Demo.

(** ** Properties of the token cache *)

Section TokenCache.

Context {host : Host}.

Ltac run :=
  unfold getAccessToken, getBcAuthHeader, bind, Date_now, read_cachedToken,
    read_cachedTokenExpiresAt, write_cachedToken, write_cachedTokenExpiresAt,
    fetch, res_text, res_json, console_error, throw, ret, getProp, respond;
  cbn [fst snd].

Ltac converted :=
  cbv beta iota zeta delta [ret];
  match goal with
  | |- context [toNumber ?v] => destruct (toNumber v)
  end.

Lemma getAccessToken_fresh (w : World) :
  fresh w = true -> getAccessToken w = (Normal (cachedToken w), w).
Proof.
  unfold fresh. intros Hf. run. rewrite Hf. reflexivity.
Qed.

(** A call that is not served from the cache sends the token request,
    whatever comes back. *)
Lemma getAccessToken_stale_trace (w : World) :
  fresh w = false ->
  trace (snd (getAccessToken w))
  = (trace w ++ [mkExchange tokenRequest (clock w)
                            (upstream (trace w) (clock w) tokenRequest)])%list.
Proof.
  unfold fresh. intros Hf. run. rewrite Hf.
  destruct (result (upstream (trace w) (clock w) tokenRequest)) as [res|];
    [|reflexivity].
  destruct (ok res); cbn [negb]; [|reflexivity].
  destruct (json res) as [data|]; [|reflexivity].
  destruct (nullish data); [reflexivity|].
  converted; reflexivity.
Qed.

(** The refresh path, on a success response carrying a document. *)
Lemma getAccessToken_refresh (w : World) (r : Reply) (res : Response)
      (data : JValue) (n : option Z) :
  fresh w = false ->
  upstream (trace w) (clock w) tokenRequest = r ->
  result r = Some res -> ok res = true -> json res = Some data ->
  nullish data = false ->
  toNumber (if truthy (prop data "expires_in")
            then prop data "expires_in" else JNum 3600) = inr n ->
  getAccessToken w
  = (Normal (prop data "access_token"),
     mkWorld (prop data "access_token")
             (match n with
              | Some n => Some (clock w + (n - 60) * 1000)
              | None => None
              end)
             (clock w + Z.of_N (uplink r) + Z.of_N (downlink r))
             (trace w ++ [mkExchange tokenRequest (clock w) r])
             (console w)).
Proof.
  unfold fresh. intros Hf Hr Hres Hok Hjson Hnull Hnum. run.
  rewrite Hf, Hr, Hres, Hok. cbn [negb]. rewrite Hjson, Hnull.
  cbv beta iota zeta delta [ret]. rewrite Hnum.
  reflexivity.
Qed.

(** The same path, on a lifetime that does not convert: the token is
    already stored when the conversion throws. *)
Lemma getAccessToken_unconvertible (w : World) (r : Reply) (res : Response)
      (data : JValue) (err : JsError) :
  fresh w = false ->
  upstream (trace w) (clock w) tokenRequest = r ->
  result r = Some res -> ok res = true -> json res = Some data ->
  nullish data = false ->
  toNumber (if truthy (prop data "expires_in")
            then prop data "expires_in" else JNum 3600) = inl err ->
  getAccessToken w
  = (Throws err,
     mkWorld (prop data "access_token") (cachedTokenExpiresAt w)
             (clock w + Z.of_N (uplink r) + Z.of_N (downlink r))
             (trace w ++ [mkExchange tokenRequest (clock w) r])
             (console w)).
Proof.
  unfold fresh. intros Hf Hr Hres Hok Hjson Hnull Hnum. run.
  rewrite Hf, Hr, Hres, Hok. cbn [negb]. rewrite Hjson, Hnull.
  cbv beta iota zeta delta [ret]. rewrite Hnum.
  reflexivity.
Qed.

(** A reported lifetime that is a number converts to itself; none, or a
    falsy one, leaves the default. *)
Lemma toNumber_lifetime (data : JValue) (L : Z) :
  prop data "expires_in" = JNum L -> L <> 0 ->
  toNumber (if truthy (prop data "expires_in")
            then prop data "expires_in" else JNum 3600) = inr (Some L).
Proof.
  intros HL Hnz. rewrite HL. cbn [truthy].
  replace (negb (L =? 0)) with true
    by (symmetry; apply negb_true_iff, Z.eqb_neq, Hnz).
  reflexivity.
Qed.

(** The failure path, on a response that is not a success. *)
Lemma getAccessToken_rejected (w : World) (r : Reply) (res : Response) :
  fresh w = false ->
  upstream (trace w) (clock w) tokenRequest = r ->
  result r = Some res -> ok res = false ->
  getAccessToken w
  = (Throws (Error token_failure_message),
     mkWorld (cachedToken w) (cachedTokenExpiresAt w)
             (clock w + Z.of_N (uplink r) + Z.of_N (downlink r))
             (trace w ++ [mkExchange tokenRequest (clock w) r])
             (console w ++ [("❌ Error getting access token from Azure:",
                             LText (text res))])).
Proof.
  unfold fresh. intros Hf Hr Hres Hok. run.
  rewrite Hf, Hr, Hres, Hok. reflexivity.
Qed.

(** A call that returns normally returns what is then in the cache. *)
Lemma getAccessToken_returns_cache (w w' : World) (tok : JValue) :
  getAccessToken w = (Normal tok, w') -> cachedToken w' = tok.
Proof.
  run. destruct (truthy (cachedToken w) && before (clock w) (cachedTokenExpiresAt w)).
  - intros E. inversion E. subst. reflexivity.
  - destruct (result (upstream (trace w) (clock w) tokenRequest)) as [res|];
      [|discriminate].
    destruct (ok res); cbn [negb]; [|discriminate].
    destruct (json res) as [data|]; [|discriminate].
    destruct (nullish data); [discriminate|].
    converted; [discriminate|].
    intros E. inversion E. reflexivity.
Qed.

(** C1. A call made while a cached token is present (truthy, as the code
    tests it) and the clock is strictly before the recorded expiry returns
    the cached token and leaves the world as it was: no request is sent.
    Consequently, when a call that had to refresh is followed by a call made
    before the expiry it recorded, the second call returns the same token and
    the two calls together have sent exactly one request, the token exchange
    of the first. *)
Theorem getAccessToken_serves_cache (w : World) :
  (fresh w = true -> getAccessToken w = (Normal (cachedToken w), w))
  /\ (forall (tok : JValue) (w1 : World) (d : N),
        fresh w = false ->
        getAccessToken w = (Normal tok, w1) ->
        fresh (later d w1) = true ->
        getAccessToken (later d w1) = (Normal tok, later d w1)
        /\ trace (later d w1)
           = (trace w ++ [mkExchange tokenRequest (clock w)
                            (upstream (trace w) (clock w) tokenRequest)])%list).
Proof.
  split.
  - apply getAccessToken_fresh.
  - intros tok w1 d Hstale Hcall Hfresh. split.
    + rewrite (getAccessToken_fresh _ Hfresh). cbn [later cachedToken].
      rewrite (getAccessToken_returns_cache _ _ _ Hcall). reflexivity.
    + pose proof (getAccessToken_stale_trace w Hstale) as Ht.
      rewrite Hcall in Ht. exact Ht.
Qed.

Lemma fresh_expired (w : World) (e : Z) :
  cachedTokenExpiresAt w = Some e -> e <= clock w -> fresh w = false.
Proof.
  unfold fresh, before. intros -> Hle.
  apply andb_false_iff. right. apply Z.ltb_ge. exact Hle.
Qed.

(** C2. A refresh that receives a credential with a reported lifetime of
    [L] seconds stores the credential and records as expiry the time read
    when the call started plus [L] seconds minus the 60-second margin; a
    later call made once that expiry has been reached sends the token
    request again. *)
Theorem getAccessToken_refresh_sets_expiry
        (w : World) (r : Reply) (res : Response) (data : JValue) (L : Z) :
  fresh w = false ->
  upstream (trace w) (clock w) tokenRequest = r ->
  result r = Some res -> ok res = true -> json res = Some data ->
  prop data "expires_in" = JNum L -> L <> 0 ->
  exists w1,
    getAccessToken w = (Normal (prop data "access_token"), w1)
    /\ cachedToken w1 = prop data "access_token"
    /\ cachedTokenExpiresAt w1 = Some (clock w + L * 1000 - safety_margin)
    /\ trace w1 = (trace w ++ [mkExchange tokenRequest (clock w) r])%list
    /\ forall d : N,
         clock w + L * 1000 - safety_margin <= clock (later d w1) ->
         trace (snd (getAccessToken (later d w1)))
         = (trace w1
              ++ [mkExchange tokenRequest (clock (later d w1))
                    (upstream (trace w1) (clock (later d w1)) tokenRequest)])%list.
Proof.
  intros Hstale Hr Hres Hok Hjson HL Hnz.
  assert (Hnull : nullish data = false).
  { destruct data; try reflexivity; discriminate HL. }
  eexists. split.
  { apply (getAccessToken_refresh w r res data (Some L)); try assumption.
    apply toNumber_lifetime; assumption. }
  cbn [cachedToken cachedTokenExpiresAt trace].
  assert (Hexp : clock w + (L - 60) * 1000 = clock w + L * 1000 - safety_margin).
  { unfold safety_margin. lia. }
  rewrite Hexp.
  repeat split.
  intros d Hd.
  match type of Hd with
  | _ <= clock ?W =>
      exact (getAccessToken_stale_trace W (fresh_expired W _ eq_refl Hd))
  end.
Qed.

(** C3, as amended.  On a token exchange answered by a non-success
    response, [getAccessToken] throws an [Error] with a fixed message that
    does not depend on the response; the response body is written to the
    console; the cached token and the cached expiry are left as they were;
    and the next call, whenever it comes, sends the token request again. *)
Theorem getAccessToken_failure_keeps_cache
        (w : World) (r : Reply) (res : Response) :
  fresh w = false ->
  upstream (trace w) (clock w) tokenRequest = r ->
  result r = Some res -> ok res = false ->
  exists w',
    getAccessToken w = (Throws (Error token_failure_message), w')
    /\ cachedToken w' = cachedToken w
    /\ cachedTokenExpiresAt w' = cachedTokenExpiresAt w
    /\ console w'
       = (console w ++ [("❌ Error getting access token from Azure:",
                         LText (text res))])%list
    /\ trace w' = (trace w ++ [mkExchange tokenRequest (clock w) r])%list
    /\ forall d : N,
         trace (snd (getAccessToken (later d w')))
         = (trace w'
              ++ [mkExchange tokenRequest (clock (later d w'))
                    (upstream (trace w') (clock (later d w')) tokenRequest)])%list.
Proof.
  intros Hstale Hr Hres Hok.
  eexists. split.
  { apply (getAccessToken_rejected w r res); assumption. }
  cbn [cachedToken cachedTokenExpiresAt console trace].
  repeat split.
  intros d.
  match goal with
  | |- trace (snd (getAccessToken ?W)) = _ =>
      refine (getAccessToken_stale_trace W _)
  end.
  revert Hstale. unfold fresh, later, before.
  cbn [cachedToken cachedTokenExpiresAt clock].
  destruct (truthy (cachedToken w)); cbn [andb]; [|reflexivity].
  destruct (cachedTokenExpiresAt w) as [e|]; [|reflexivity].
  intros Hge. apply Z.ltb_ge in Hge. apply Z.ltb_ge. lia.
Qed.


Lemma honoured_grows (w w' : World) (tok : JValue) (t : Z)
      (more : list Exchange) :
  trace w' = (trace w ++ more)%list -> honoured w tok t -> honoured w' tok t.
Proof.
  intros Ht (x & until & Hin & Hg & Hle).
  exists x, until. repeat split; try assumption.
  rewrite Ht. apply in_or_app. left. exact Hin.
Qed.

Lemma cache_backed_boot (t : Z) : cache_backed (boot t).
Proof. intros e Htruthy. discriminate Htruthy. Qed.

Lemma cache_backed_later (w : World) (d : N) :
  cache_backed w -> cache_backed (later d w).
Proof.
  intros Hw e Htruthy He.
  apply (honoured_grows w _ _ _ []); [cbn; now rewrite app_nil_r|].
  apply Hw; assumption.
Qed.

(** What a normal return of a call that had to refresh tells about the
    reply. *)
Lemma getAccessToken_stale_normal (w w' : World) (tok : JValue) :
  fresh w = false ->
  getAccessToken w = (Normal tok, w') ->
  exists res data,
    result (upstream (trace w) (clock w) tokenRequest) = Some res
    /\ ok res = true /\ json res = Some data /\ nullish data = false.
Proof.
  unfold fresh. intros Hf. run. rewrite Hf.
  destruct (result (upstream (trace w) (clock w) tokenRequest)) as [res|];
    [|discriminate].
  destruct (ok res) eqn:Hok; cbn [negb]; [|discriminate].
  destruct (json res) as [data|] eqn:Hjson; [|discriminate].
  destruct (nullish data) eqn:Hnull; [discriminate|].
  intros _. exists res, data. repeat split; assumption.
Qed.

(** What a throw tells: the token request was sent and the expiry is as it
    was; the token is as it was too, unless it is the conversion of the
    reported lifetime that threw. *)
Lemma getAccessToken_throws_inv (w w' : World) (e : JsError) :
  getAccessToken w = (Throws e, w') ->
  cachedTokenExpiresAt w' = cachedTokenExpiresAt w
  /\ trace w'
     = (trace w ++ [mkExchange tokenRequest (clock w)
                      (upstream (trace w) (clock w) tokenRequest)])%list
  /\ (cachedToken w' = cachedToken w
      \/ exists res data,
           result (upstream (trace w) (clock w) tokenRequest) = Some res
           /\ ok res = true /\ json res = Some data /\ nullish data = false
           /\ toNumber (if truthy (prop data "expires_in")
                        then prop data "expires_in" else JNum 3600) = inl e
           /\ cachedToken w' = prop data "access_token").
Proof.
  run.
  destruct (truthy (cachedToken w) && before (clock w) (cachedTokenExpiresAt w));
    [discriminate|].
  destruct (result (upstream (trace w) (clock w) tokenRequest)) as [res|].
  - destruct (ok res) eqn:Hok; cbn [negb].
    + destruct (json res) as [data|] eqn:Hjson.
      * destruct (nullish data) eqn:Hnull.
        { intros E. inversion E. split; [reflexivity|]. split; [reflexivity|].
          left. reflexivity. }
        cbv beta iota zeta delta [ret].
        match goal with
        | |- context [toNumber ?v] =>
            destruct (toNumber v) as [err|n] eqn:Hnum; [|discriminate]
        end.
        intros E. inversion E. subst err.
        split; [reflexivity|]. split; [reflexivity|].
        right. exists res, data. cbn [cachedToken].
        repeat split; try assumption; reflexivity.
      * intros E. inversion E. split; [reflexivity|]. split; [reflexivity|].
        left. reflexivity.
    + intros E. inversion E. split; [reflexivity|]. split; [reflexivity|].
      left. reflexivity.
  - intros E. inversion E. split; [reflexivity|]. split; [reflexivity|].
    left. reflexivity.
Qed.


(** *** Further properties of the token cache *)

(** X1. A call that throws, for whatever reason (the exchange was refused,
    the transport failed, the body was no JSON, the document was [null], the
    reported lifetime does not convert to a number), has sent the token
    request and has left the cached expiry as it was.  The cached token is
    left as it was as well, with one exception: when it is the conversion of
    the reported lifetime that throws, the success response's [access_token]
    is already stored, under the old expiry. *)
Theorem getAccessToken_throw_effects (w w' : World) (e : JsError) :
  getAccessToken w = (Throws e, w') ->
  cachedTokenExpiresAt w' = cachedTokenExpiresAt w
  /\ trace w'
     = (trace w ++ [mkExchange tokenRequest (clock w)
                      (upstream (trace w) (clock w) tokenRequest)])%list
  /\ (cachedToken w' = cachedToken w
      \/ exists res data,
           result (upstream (trace w) (clock w) tokenRequest) = Some res
           /\ ok res = true /\ json res = Some data /\ nullish data = false
           /\ truthy (prop data "expires_in") = true
           /\ unprintable (prop data "expires_in") = true
           /\ e = TypeError "Cannot convert object to primitive value"
           /\ cachedToken w' = prop data "access_token").
Proof.
  intros Hcall.
  destruct (getAccessToken_throws_inv w w' e Hcall)
    as (Hexp & Htrace & [Htok|(res & data & Hres & Hok & Hjson & Hnull & Hnum & Htok)]).
  - repeat split; try assumption. left. exact Htok.
  - split; [exact Hexp|]. split; [exact Htrace|]. right.
    exists res, data. unfold toNumber in Hnum.
    destruct (truthy (prop data "expires_in")) eqn:Htruthy;
      [|discriminate Hnum].
    destruct (unprintable (prop data "expires_in")) eqn:Hun;
      [|discriminate Hnum].
    inversion Hnum. repeat split; assumption.
Qed.

(** X2. When the success response reports no lifetime, or a falsy one
    (0 included), the refresh assumes 3600 seconds: the token is cached
    until 3540 seconds after the time read when the call started. *)
Theorem getAccessToken_default_lifetime
        (w : World) (res : Response) (data : JValue) :
  fresh w = false ->
  result (upstream (trace w) (clock w) tokenRequest) = Some res ->
  ok res = true -> json res = Some data -> nullish data = false ->
  truthy (prop data "expires_in") = false ->
  exists w1,
    getAccessToken w = (Normal (prop data "access_token"), w1)
    /\ cachedToken w1 = prop data "access_token"
    /\ cachedTokenExpiresAt w1 = Some (clock w + 3540 * 1000).
Proof.
  intros Hstale Hres Hok Hjson Hnull Hfalsy.
  eexists. split.
  { apply (getAccessToken_refresh w (upstream (trace w) (clock w) tokenRequest)
                                  res data (Some 3600) Hstale eq_refl Hres Hok
                                  Hjson Hnull).
    rewrite Hfalsy. reflexivity. }
  cbn [cachedToken cachedTokenExpiresAt].
  split; [reflexivity|]. f_equal.
Qed.

(** X3. When the reported lifetime is truthy and converts, but to no
    number (a text that is no numeral, an object without a [toString] key of
    its own), the recorded expiry is NaN: the token just stored is never
    served from the cache, and every later call sends the token request
    again. *)
Theorem getAccessToken_nan_lifetime
        (w : World) (res : Response) (data : JValue) :
  fresh w = false ->
  result (upstream (trace w) (clock w) tokenRequest) = Some res ->
  ok res = true -> json res = Some data -> nullish data = false ->
  truthy (prop data "expires_in") = true ->
  toNumber (prop data "expires_in") = inr None ->
  exists w1,
    getAccessToken w = (Normal (prop data "access_token"), w1)
    /\ cachedToken w1 = prop data "access_token"
    /\ cachedTokenExpiresAt w1 = None
    /\ forall d : N,
         fresh (later d w1) = false
         /\ trace (snd (getAccessToken (later d w1)))
            = (trace w1
                 ++ [mkExchange tokenRequest (clock (later d w1))
                       (upstream (trace w1) (clock (later d w1)) tokenRequest)])%list.
Proof.
  intros Hstale Hres Hok Hjson Hnull Htruthy Hnan.
  eexists. split.
  { apply (getAccessToken_refresh w (upstream (trace w) (clock w) tokenRequest)
                                  res data None Hstale eq_refl Hres Hok
                                  Hjson Hnull).
    rewrite Htruthy. exact Hnan. }
  cbn [cachedToken cachedTokenExpiresAt].
  split; [reflexivity|]. split; [reflexivity|].
  intros d.
  match goal with
  | |- fresh ?W = false /\ _ =>
      assert (Hnever : fresh W = false)
        by (unfold fresh, later, before; cbn; apply andb_false_r)
  end.
  split; [exact Hnever|].
  exact (getAccessToken_stale_trace _ Hnever).
Qed.

Lemma cache_backed_call (w : World) :
  cache_backed w -> lifetime_reported w ->
  cache_backed (snd (getAccessToken w)).
Proof.
  intros Hinv Hrep.
  destruct (getAccessToken w) as [out w'] eqn:Hcall. cbn [snd].
  destruct (fresh w) eqn:Hfresh.
  - rewrite (getAccessToken_fresh w Hfresh) in Hcall.
    inversion Hcall; subst. exact Hinv.
  - destruct out as [tok|e|r].
    + destruct (getAccessToken_stale_normal w w' tok Hfresh Hcall)
        as (res & data & Hres & Hok & Hjson & Hnull).
      destruct (Hrep res data Hres Hok Hjson) as (L & HL & Hnz).
      rewrite (getAccessToken_refresh w _ res data (Some L) Hfresh eq_refl Hres Hok
                                      Hjson Hnull (toNumber_lifetime data L HL Hnz))
        in Hcall.
      inversion Hcall; subst tok. clear Hcall.
      set (r := upstream (trace w) (clock w) tokenRequest) in *.
      intros e Htruthy He. subst w'.
      cbn [cachedToken cachedTokenExpiresAt trace] in *.
      inversion He; subst e.
      exists (mkExchange tokenRequest (clock w) r),
             (clock w + Z.of_N (uplink r) + L * 1000).
      cbn [trace]. repeat split.
      * apply in_or_app. right. left. reflexivity.
      * unfold grant_of. cbn [request url tokenRequest reply sent_at].
        rewrite String.eqb_refl, Hres, Hok, Hjson, HL. reflexivity.
      * unfold safety_margin. lia.
    + destruct (getAccessToken_throws_inv w w' e Hcall)
        as (Hexp & Htrace & [Htok|(res & data & Hres & Hok & Hjson & _ & Hnum & _)]).
      * intros e' Htruthy He. rewrite Htok in *. rewrite Hexp in He.
        eapply honoured_grows; [exact Htrace|]. apply Hinv; assumption.
      * destruct (Hrep res data Hres Hok Hjson) as (L & HL & Hnz).
        rewrite (toNumber_lifetime data L HL Hnz) in Hnum. discriminate Hnum.
    + exfalso. revert Hcall. run.
      destruct (truthy (cachedToken w) && before (clock w) (cachedTokenExpiresAt w));
        [discriminate|].
      destruct (result (upstream (trace w) (clock w) tokenRequest)) as [res|];
        [|discriminate].
      destruct (ok res); cbn [negb]; [|discriminate].
      destruct (json res) as [data|]; [|discriminate].
      destruct (nullish data); [discriminate|].
      converted; discriminate.
Qed.

Lemma trace_of_calls_reported (w : World) :
  reports_lifetimes -> lifetime_reported w.
Proof. intros Hrep res data. apply Hrep. Qed.

(** X4. With an identity provider that reports a lifetime on every grant,
    the cache stays backed whatever the sequence of calls since the process
    started: at any moment, a token the cache holds is honoured by the
    provider for 60 seconds past the recorded expiry. *)
Theorem cache_backed_always (ds : list N) (t : Z) :
  reports_lifetimes -> cache_backed (calls ds (boot t)).
Proof.
  intros Hrep.
  assert (Hgen : forall w, cache_backed w -> cache_backed (calls ds w)).
  { induction ds as [|d rest IH]; intros w Hw; cbn [calls]; [exact Hw|].
    apply IH. apply cache_backed_call.
    - apply cache_backed_later. exact Hw.
    - apply trace_of_calls_reported. exact Hrep. }
  apply Hgen. apply cache_backed_boot.
Qed.

End TokenCache.

(** ** Properties of the routes *)

Section Routes.

Context {host : Host}.

(** C5. POST /login with [{email: "Robertos-Rest", password: "Rest1234"}]
    answers 200 with a token and [user: {email: "Robertos-Rest"}]; the token
    is the one [jwt.sign] makes for eight hours, and verifying it under the
    server's secret before it expires yields a payload whose [id], [email]
    and [bcCustomerNo] are 1, "Robertos-Rest" and "CUST-00466" (next to the
    [iat] and [exp] the library adds). *)
Theorem login_roberto (auth : option string) (w : World) :
  jwt_sound ->
  exists token,
    login (mkHttpRequest auth
             (JObj [("email", JStr "Robertos-Rest");
                    ("password", JStr "Rest1234")])) w
    = (Sends (mkHttpResponse 200
                (JObj [("token", JStr token);
                       ("user", JObj [("email", JStr "Robertos-Rest")])])),
       w)
    /\ forall t,
        t / 1000 < clock w / 1000 + 28800 ->
        exists payload,
          jwt_verify token JWT_SECRET t = inr payload
          /\ prop payload "id" = JNum 1
          /\ prop payload "email" = JStr "Robertos-Rest"
          /\ prop payload "bcCustomerNo" = JStr "CUST-00466".
Proof.
  intros Hjwt.
  exists (jwt_sign (JObj [("id", JNum 1); ("email", JStr "Robertos-Rest");
                          ("bcCustomerNo", JStr "CUST-00466")])
                   JWT_SECRET "8h" (clock w)).
  split.
  - reflexivity.
  - intros t Ht. eexists. split.
    + apply Hjwt. exact Ht.
    + repeat split.
Qed.

(** The session check either answers 401 or passes the verified payload
    on, without touching the world. *)
Lemma authMiddleware_passes (req : HttpRequest) (w w' : World) (user : JValue) :
  authMiddleware req w = (Normal user, w') ->
  w' = w
  /\ exists token,
      bearer (or_default (authorization req) "") = Some token
      /\ jwt_verify token JWT_SECRET (clock w) = inr user.
Proof.
  unfold authMiddleware, respond, send, bind, Date_now, console_error, ret.
  destruct (bearer (or_default (authorization req) "")) as [token|];
    [|discriminate].
  destruct (token =? "")%string; [discriminate|].
  destruct (jwt_verify token JWT_SECRET (clock w)) as [err|payload] eqn:Hv;
    [discriminate|].
  intros E. inversion E; subst. split; [reflexivity|].
  exists token. split; [reflexivity|assumption].
Qed.

(** C6. On POST /order with a session the middleware accepts, a body
    whose [lines] is missing, is not an array, or is an empty array is
    answered 400, and the world is left exactly as it was: nothing was sent
    to the identity provider or to the ERP. *)
Theorem order_without_lines_rejected
        (req : HttpRequest) (w w0 : World) (user : JValue) :
  authMiddleware req w = (Normal user, w0) ->
  nullish (req_body req) = false ->
  (forall xs, prop (req_body req) "lines" = JArr xs -> xs = []) ->
  post_order req w
  = (Sends (mkHttpResponse 400 (JObj [("error", JStr "No order lines provided.")])),
     w).
Proof.
  intros Hauth Hbody Hlines.
  destruct (authMiddleware_passes _ _ _ _ Hauth) as [-> _].
  unfold post_order, bind. rewrite Hauth.
  unfold order_handler, try_catch, bind, getProp. rewrite Hbody.
  unfold ret.
  destruct (prop (req_body req) "lines") as [| |b|n|s|xs|fs] eqn:Hl;
    try reflexivity.
  - destruct b; reflexivity.
  - cbn [truthy isArray negb orb]. rewrite orb_true_r. reflexivity.
  - cbn [truthy isArray negb orb]. rewrite orb_true_r. reflexivity.
  - rewrite (Hlines xs eq_refl). reflexivity.
Qed.

(** C7. A request to a protected route without an [Authorization] header,
    without a bearer token in it, or with a bearer token that verification
    rejects is answered 401 with a JSON [error] body.  The answer is the
    same whatever handler follows the middleware, so the handler is not
    run; in particular on /order and /orders.  The trace and the token
    cache are untouched. *)
Theorem unauthenticated_request_rejected (req : HttpRequest) (w : World) :
  session_rejected req (clock w) ->
  exists msg w',
    (forall (A : Type) (handler : JValue -> M A),
        bind (authMiddleware req) handler w
        = (Sends (mkHttpResponse 401 (JObj [("error", JStr msg)])), w'))
    /\ post_order req w
       = (Sends (mkHttpResponse 401 (JObj [("error", JStr msg)])), w')
    /\ get_orders req w
       = (Sends (mkHttpResponse 401 (JObj [("error", JStr msg)])), w')
    /\ trace w' = trace w
    /\ cachedToken w' = cachedToken w
    /\ cachedTokenExpiresAt w' = cachedTokenExpiresAt w.
Proof.
  unfold session_rejected, post_order, get_orders.
  intros Hrej.
  assert (Hmw : exists msg w',
             authMiddleware req w
             = (Sends (mkHttpResponse 401 (JObj [("error", JStr msg)])), w')
             /\ trace w' = trace w
             /\ cachedToken w' = cachedToken w
             /\ cachedTokenExpiresAt w' = cachedTokenExpiresAt w).
  { unfold authMiddleware, respond, send, bind, Date_now, console_error, ret.
    destruct (authorization req) as [h|]; cbn [or_default].
    - destruct (h =? "")%string eqn:Hh.
      + eexists. eexists. cbn. repeat split.
      + destruct (bearer h) as [token|].
        * destruct (token =? "")%string eqn:Htok.
          -- eexists. eexists. repeat split.
          -- destruct Hrej as [Hempty|[err Herr]].
             ++ subst token. discriminate Htok.
             ++ rewrite Herr. eexists. eexists. repeat split.
        * eexists. eexists. repeat split.
    - eexists. eexists. cbn. repeat split. }
  destruct Hmw as (msg & w' & Hrun & Htrace & Htok & Hexp).
  exists msg, w'. unfold bind. rewrite Hrun. repeat split; assumption.
Qed.

(** *** Runs only append to the trace, and a failed line ends them *)

Lemma tidy_silent {A} (m : M A) :
  (forall w, trace (snd (m w)) = trace w) -> tidy m.
Proof.
  intros Hm w out w' E. exists []. split.
  - rewrite app_nil_r. specialize (Hm w). rewrite E in Hm. exact Hm.
  - intros [|y pre] x post Hd; discriminate Hd.
Qed.

Lemma tidy_ret {A} (a : A) : tidy (ret a).
Proof. apply tidy_silent. reflexivity. Qed.

Lemma tidy_throw {A} (e : JsError) : tidy (@throw A e).
Proof. apply tidy_silent. reflexivity. Qed.

Lemma tidy_send {A} (r : HttpResponse) : tidy (@send A r).
Proof. apply tidy_silent. reflexivity. Qed.

Lemma tidy_respond {A} (code : Z) (v : JValue) : tidy (@respond A code v).
Proof. apply tidy_silent. reflexivity. Qed.

Lemma tidy_console_error (msg : string) (arg : LogArg) :
  tidy (console_error msg arg).
Proof. apply tidy_silent. reflexivity. Qed.

Lemma tidy_Date_now : tidy Date_now.
Proof. apply tidy_silent. reflexivity. Qed.

Lemma tidy_read_cachedToken : tidy read_cachedToken.
Proof. apply tidy_silent. reflexivity. Qed.

Lemma tidy_read_cachedTokenExpiresAt : tidy read_cachedTokenExpiresAt.
Proof. apply tidy_silent. reflexivity. Qed.

Lemma tidy_write_cachedToken (v : JValue) : tidy (write_cachedToken v).
Proof. apply tidy_silent. reflexivity. Qed.

Lemma tidy_write_cachedTokenExpiresAt (t : option Z) :
  tidy (write_cachedTokenExpiresAt t).
Proof. apply tidy_silent. reflexivity. Qed.

Lemma tidy_getProp (v : JValue) (k : string) : tidy (getProp v k).
Proof. apply tidy_silent. intros w. unfold getProp. destruct (nullish v); reflexivity. Qed.

Lemma tidy_template (v : JValue) : tidy (template v).
Proof. apply tidy_silent. intros w. unfold template. destruct (unprintable v); reflexivity. Qed.

Lemma tidy_res_text (r : Response) : tidy (res_text r).
Proof. apply tidy_silent. reflexivity. Qed.

Lemma tidy_res_json (r : Response) : tidy (res_json r).
Proof. apply tidy_silent. intros w. unfold res_json. destruct (json r); reflexivity. Qed.

Lemma tidy_when (c : bool) (m : M unit) : tidy m -> tidy (when c m).
Proof. intros Hm. destruct c; [exact Hm|apply tidy_ret]. Qed.

Lemma tidy_bind {A B} (m : M A) (k : A -> M B) :
  tidy m -> (forall a, tidy (k a)) -> tidy (bind m k).
Proof.
  intros Hm Hk w out w' E. unfold bind in E.
  destruct (m w) as [o1 w1] eqn:Em.
  destruct (Hm w o1 w1 Em) as (more1 & Ht1 & Hlast1).
  destruct o1 as [a|e|r].
  - destruct (Hk a w1 out w' E) as (more2 & Ht2 & Hlast2).
    exists (more1 ++ more2)%list. split.
    + rewrite Ht2, Ht1, app_assoc. reflexivity.
    + intros pre x post Hd Hx.
      apply app_eq_app in Hd. destruct Hd as (l & [[H1 H2]|[H1 H2]]).
      * destruct l as [|y l].
        -- apply (Hlast2 [] x post); [symmetry; exact H2|exact Hx].
        -- cbn in H2. inversion H2; subst y post.
           destruct (Hlast1 pre x l H1 Hx) as [_ Hout]. discriminate Hout.
      * apply (Hlast2 l x post); assumption.
  - inversion E; subst. exists more1. split; [exact Ht1|].
    intros pre x post Hd Hx.
    destruct (Hlast1 pre x post Hd Hx) as [_ Hout]. discriminate Hout.
  - inversion E; subst. exists more1. split; [exact Ht1|].
    intros pre x post Hd Hx.
    destruct (Hlast1 pre x post Hd Hx) as [Hpost Hout].
    inversion Hout. split; [assumption|reflexivity].
Qed.

Lemma tidy_try_catch {A} (m : M A) (h : JsError -> M A) :
  tidy m -> (forall e, tidy (h e)) -> tidy (try_catch m h).
Proof.
  intros Hm Hh w out w' E. unfold try_catch in E.
  destruct (m w) as [o1 w1] eqn:Em.
  destruct (Hm w o1 w1 Em) as (more1 & Ht1 & Hlast1).
  destruct o1 as [a|e|r].
  - inversion E; subst. exists more1. split; assumption.
  - destruct (Hh e w1 out w' E) as (more2 & Ht2 & Hlast2).
    exists (more1 ++ more2)%list. split.
    + rewrite Ht2, Ht1, app_assoc. reflexivity.
    + intros pre x post Hd Hx.
      apply app_eq_app in Hd. destruct Hd as (l & [[H1 H2]|[H1 H2]]).
      * destruct l as [|y l].
        -- apply (Hlast2 [] x post); [symmetry; exact H2|exact Hx].
        -- cbn in H2. inversion H2; subst y post.
           destruct (Hlast1 pre x l H1 Hx) as [_ Hout]. discriminate Hout.
      * apply (Hlast2 l x post); assumption.
  - inversion E; subst. exists more1. split; assumption.
Qed.

(** A request to another address than the line endpoint is never a failed
    line. *)
Lemma tidy_fetch (req : Request) :
  url req <> lineUrl -> tidy (fetch req).
Proof.
  intros Hurl w out w' E. unfold fetch in E.
  exists [mkExchange req (clock w) (upstream (trace w) (clock w) req)].
  split.
  - destruct (result (upstream (trace w) (clock w) req));
      inversion E; reflexivity.
  - intros pre x post Hd Hx.
    destruct pre as [|y pre]; [|destruct pre; discriminate Hd].
    inversion Hd; subst x post.
    unfold failed_line in Hx. cbn [request] in Hx.
    apply andb_true_iff in Hx as [Hx _].
    apply String.eqb_eq in Hx. contradiction.
Qed.

Lemma append_inv_head (s a b : string) : s ++ a = s ++ b -> a = b.
Proof.
  induction s as [|c s IH]; cbn; intros E; [exact E|].
  inversion E. auto.
Qed.

Lemma tokenUrl_not_lineUrl : url tokenRequest <> lineUrl.
Proof.
  unfold tokenRequest, tokenUrl, lineUrl, COMPANY_URL, BC_BASE_URL.
  cbn. intros E. discriminate E.
Qed.

Lemma customerUrl_not_lineUrl (authHeader : string) (no : JValue) :
  url (customerRequest authHeader no) <> lineUrl.
Proof.
  unfold customerRequest, customerUrl, lineUrl. cbn [url].
  intros E. apply append_inv_head in E. discriminate E.
Qed.

Lemma createOrderUrl_not_lineUrl (authHeader : string) (customerId : JValue)
      (now : Z) :
  url (createOrderRequest authHeader customerId now) <> lineUrl.
Proof.
  unfold createOrderRequest, createOrderUrl, lineUrl. cbn [url].
  intros E. apply append_inv_head in E. discriminate E.
Qed.

Lemma ordersUrl_not_lineUrl (authHeader : string) (no : JValue) :
  url (mkRequest (ordersUrl no) "GET" (apiHeaders authHeader) NoBody) <> lineUrl.
Proof.
  unfold ordersUrl, lineUrl. cbn [url].
  intros E. apply append_inv_head in E. discriminate E.
Qed.

Create HintDb tidy discriminated.
Hint Resolve tidy_ret tidy_throw tidy_send tidy_respond tidy_console_error
     tidy_Date_now tidy_read_cachedToken tidy_read_cachedTokenExpiresAt
     tidy_write_cachedToken tidy_write_cachedTokenExpiresAt tidy_getProp
     tidy_template
     tidy_res_text tidy_res_json tidy_fetch tokenUrl_not_lineUrl
     customerUrl_not_lineUrl createOrderUrl_not_lineUrl ordersUrl_not_lineUrl
  : tidy.

Ltac tidy_step :=
  lazymatch goal with
  | H : tidy ?m |- tidy ?m => exact H
  | |- tidy (bind _ _) => apply tidy_bind; [|intro]
  | |- tidy (try_catch _ _) => apply tidy_try_catch; [|intro]
  | |- tidy (when _ _) => apply tidy_when
  | |- tidy (if ?c then _ else _) => destruct c
  | |- tidy (match ?v with inl _ => _ | inr _ => _ end) => destruct v
  | |- tidy (match ?v with JArr _ => _ | _ => _ end) => destruct v
  | |- _ => solve [auto with tidy]
  end.

Ltac tidy_tac := cbv beta zeta; repeat (tidy_step; cbv beta zeta).

Lemma tidy_getAccessToken : tidy getAccessToken.
Proof. unfold getAccessToken. tidy_tac. Qed.

Lemma tidy_getBcAuthHeader : tidy getBcAuthHeader.
Proof. unfold getBcAuthHeader. pose proof tidy_getAccessToken. tidy_tac. Qed.

Lemma tidy_lookupCustomer (authHeader : string) (no : JValue) :
  tidy (lookupCustomer authHeader no).
Proof. unfold lookupCustomer. tidy_tac. Qed.

Lemma tidy_createOrderHeader (authHeader : string) (customerId : JValue) :
  tidy (createOrderHeader authHeader customerId).
Proof. unfold createOrderHeader. tidy_tac. Qed.

(** The one place where a line is sent: a failed line ends the turn by
    sending [line_failure]. *)
Lemma tidy_post_line (authHeader : string) (orderId line : JValue) :
  tidy (lineRes <- fetch (lineRequest authHeader orderId line) ;;
        when (negb (ok lineRes))
          (text <- res_text lineRes ;;
           console_error "❌ BC add line error:" (LText text) ;;;
           send line_failure)).
Proof.
  intros w out w' E.
  unfold bind, fetch, when, res_text, console_error, send, ret in E.
  set (req := lineRequest authHeader orderId line) in *.
  set (r := upstream (trace w) (clock w) req) in *.
  exists [mkExchange req (clock w) r].
  assert (Hone : forall pre x post,
             [mkExchange req (clock w) r] = (pre ++ x :: post)%list ->
             x = mkExchange req (clock w) r /\ post = []).
  { intros [|y [|z pre]] x post Hd; try discriminate Hd.
    inversion Hd. split; reflexivity. }
  destruct (result r) as [res|] eqn:Hr.
  - destruct (ok res) eqn:Hok; cbn in E; inversion E; subst out w'; clear E;
      (split; [reflexivity|]);
      intros pre x post Hd Hx; destruct (Hone _ _ _ Hd) as [-> ->].
    + unfold failed_line in Hx. cbn [reply result] in Hx.
      rewrite Hr, Hok, andb_false_r in Hx. discriminate Hx.
    + split; reflexivity.
  - inversion E; subst out w'; clear E. split; [reflexivity|].
    intros pre x post Hd Hx; destruct (Hone _ _ _ Hd) as [-> ->].
    unfold failed_line in Hx. cbn [reply result] in Hx.
    rewrite Hr, andb_false_r in Hx. discriminate Hx.
Qed.

Lemma tidy_addLine (authHeader : string) (orderId line : JValue) :
  tidy (addLine authHeader orderId line).
Proof.
  unfold addLine. pose proof (tidy_post_line authHeader orderId line).
  tidy_tac.
Qed.

Lemma tidy_addLines (authHeader : string) (orderId : JValue)
      (lines : list JValue) :
  tidy (addLines authHeader orderId lines).
Proof.
  induction lines as [|line rest IH]; cbn [addLines].
  - apply tidy_ret.
  - apply tidy_bind; [apply tidy_addLine|intros _; exact IH].
Qed.

Lemma tidy_order_handler (req : HttpRequest) (user : JValue) :
  tidy (order_handler req user).
Proof.
  unfold order_handler.
  pose proof tidy_getBcAuthHeader. pose proof tidy_lookupCustomer.
  pose proof tidy_createOrderHeader. pose proof tidy_addLines.
  tidy_tac.
Qed.

Lemma tidy_authMiddleware (req : HttpRequest) : tidy (authMiddleware req).
Proof.
  unfold authMiddleware. cbv zeta.
  destruct (bearer (or_default (authorization req) "")) as [token|];
    [|apply tidy_respond].
  destruct (token =? "")%string; [apply tidy_respond|].
  apply tidy_bind; [apply tidy_Date_now|]. intros now.
  destruct (jwt_verify token JWT_SECRET now); tidy_tac.
Qed.

Lemma tidy_post_order (req : HttpRequest) : tidy (post_order req).
Proof.
  unfold post_order. apply tidy_bind.
  - apply tidy_authMiddleware.
  - intros user. apply tidy_order_handler.
Qed.

(** C8. In a run of POST /order, an exchange in which the creation of an
    order line was answered by a non-success response is the last exchange
    of the run, and the run ends by answering 500 with the fixed message:
    no request follows the failed one, so no deletion undoes the header or
    the lines created before it. *)
Theorem failed_line_ends_order
        (req : HttpRequest) (w w' : World) (out : Outcome unit)
        (pre post : list Exchange) (x : Exchange) :
  post_order req w = (out, w') ->
  trace w' = (trace w ++ pre ++ x :: post)%list ->
  failed_line x = true ->
  out = Sends (mkHttpResponse 500
                 (JObj [("error", JStr "Failed to add an order line in BC.")]))
  /\ post = [].
Proof.
  intros Hrun Htrace Hx.
  destruct (tidy_post_order req w out w' Hrun) as (more & Hmore & Hlast).
  rewrite Hmore in Htrace. apply app_inv_head in Htrace.
  destruct (Hlast pre x post Htrace Hx) as [Hpost Hout].
  split; assumption.
Qed.

(** *** Running a handler step by step *)

Lemma bind_normal {A B} (m : M A) (k : A -> M B) (w w1 : World) (a : A) :
  m w = (Normal a, w1) -> bind m k w = k a w1.
Proof. intros E. unfold bind. rewrite E. reflexivity. Qed.

Lemma try_bind_normal {A B} (m : M A) (k : A -> M B) (h : JsError -> M B)
      (w w1 : World) (a : A) :
  m w = (Normal a, w1) -> try_catch (bind m k) h w = try_catch (k a) h w1.
Proof. intros E. unfold try_catch, bind. rewrite E. reflexivity. Qed.

Lemma getProp_normal (v : JValue) (k : string) (w : World) :
  nullish v = false -> getProp v k w = (Normal (prop v k), w).
Proof. intros Hv. unfold getProp. rewrite Hv. reflexivity. Qed.

Lemma tidy_grows {A} (m : M A) (w : World) :
  tidy m -> exists more, trace (snd (m w)) = (trace w ++ more)%list.
Proof.
  intros Hm. destruct (m w) as [out w'] eqn:E.
  destruct (Hm w out w' E) as (more & Ht & _). exists more. exact Ht.
Qed.

(** A handler that starts by a [fetch] has the exchange next in its
    trace, whatever follows. *)
Lemma fetch_then {A B} (req : Request) (k2 : Response -> M A) (k3 : A -> M B)
      (h : JsError -> M B) (w : World) :
  (forall res, tidy (try_catch (bind (k2 res) k3) h)) ->
  (forall e, tidy (h e)) ->
  exists more,
    trace (snd (try_catch (bind (bind (fetch req) k2) k3) h w))
    = (trace w
         ++ mkExchange req (clock w) (upstream (trace w) (clock w) req)
         :: more)%list.
Proof.
  intros Hrest Hh.
  set (r := upstream (trace w) (clock w) req).
  assert (Hrun :
            try_catch (bind (bind (fetch req) k2) k3) h w
            = match result r with
              | Some res => try_catch (bind (k2 res) k3) h (arrived req r w)
              | None => h (FetchError "request failed") (arrived req r w)
              end).
  { unfold try_catch, bind, fetch, arrived. fold r.
    destruct (result r); reflexivity. }
  rewrite Hrun.
  destruct (result r) as [res|].
  - destruct (tidy_grows _ (arrived req r w) (Hrest res)) as (more & Hmore).
    exists more. rewrite Hmore. cbn [arrived trace].
    rewrite <- app_assoc. reflexivity.
  - destruct (tidy_grows _ (arrived req r w) (Hh (FetchError "request failed")))
      as (more & Hmore).
    exists more. rewrite Hmore. cbn [arrived trace].
    rewrite <- app_assoc. reflexivity.
Qed.

Lemma template_normal (v : JValue) (w : World) :
  unprintable v = false -> template v w = (Normal (toString v), w).
Proof. intros Hv. unfold template. rewrite Hv. reflexivity. Qed.

(** A line the loop leaves out changes nothing: the loop goes on with the
    remaining lines from the same world. *)
Lemma addLines_skip (authHeader : string) (orderId line : JValue)
      (rest : list JValue) (w : World) :
  nullish line = false -> skipped line = true ->
  addLines authHeader orderId (line :: rest) w
  = addLines authHeader orderId rest w.
Proof.
  intros Hline Hskip. cbn [addLines]. unfold bind at 1.
  assert (Hturn : addLine authHeader orderId line w = (Normal tt, w)).
  { unfold addLine, bind. rewrite (getProp_normal _ _ _ Hline).
    unfold skipped in Hskip.
    destruct (truthy (prop line "id")); cbn [negb orb] in *; [|reflexivity].
    rewrite (getProp_normal _ _ _ Hline), Hskip. reflexivity. }
  rewrite Hturn. reflexivity.
Qed.

Lemma addLines_all_skipped (authHeader : string) (orderId : JValue)
      (lines : list JValue) (w : World) :
  Forall (fun line => nullish line = false /\ skipped line = true) lines ->
  addLines authHeader orderId lines w = (Normal tt, w).
Proof.
  induction 1 as [|line rest [Hline Hskip] _ IH]; [reflexivity|].
  rewrite addLines_skip; assumption.
Qed.

(** A header creation that returns has sent one request, the POST to the
    sales orders, and was answered by a success carrying the order. *)
Lemma createOrderHeader_normal (authHeader : string) (customerId order : JValue)
      (w w' : World) :
  createOrderHeader authHeader customerId w = (Normal order, w') ->
  exists r res,
    trace w'
    = (trace w
         ++ [mkExchange (createOrderRequest authHeader customerId (clock w))
                        (clock w) r])%list
    /\ result r = Some res /\ ok res = true /\ json res = Some order.
Proof.
  unfold createOrderHeader, bind, Date_now, fetch, when, res_text,
    console_error, respond, send, res_json, throw, ret.
  set (req := createOrderRequest authHeader customerId (clock w)).
  destruct (result (upstream (trace w) (clock w) req)) as [res|] eqn:Hr;
    [|discriminate].
  destruct (ok res) eqn:Hok; cbn [negb]; [|discriminate].
  destruct (json res) as [v|] eqn:Hj; [|discriminate].
  intros E. inversion E; subst. cbn [trace].
  exists (upstream (trace w) (clock w) req), res. repeat split; assumption.
Qed.

(** C9, as amended.  A line that is not [null] and whose [id] or
    [quantity] is absent or falsy (a quantity of 0 included) is left out
    silently: the loop goes on from the same world, so no request was sent
    for it and nothing was reported.  And when every line of an order is such
    a line, the route, once the customer is found and the header created
    (the customer number and the order number being values that convert to
    text), answers 200 with [success: true], the order number and the
    message naming it, from the world in which the header creation returned:
    the header was created and no line was sent. *)
Theorem skipped_lines_send_nothing :
  (forall (authHeader : string) (orderId line : JValue) (rest : list JValue)
          (w : World),
      nullish line = false -> skipped line = true ->
      addLines authHeader orderId (line :: rest) w
      = addLines authHeader orderId rest w)
  /\ (forall (req : HttpRequest) (w w0 w1 w2 w3 : World)
             (user customerId order : JValue) (lines : list JValue)
             (authHeader : string),
        authMiddleware req w = (Normal user, w0) ->
        prop (req_body req) "lines" = JArr lines -> lines <> [] ->
        Forall (fun line => nullish line = false /\ skipped line = true) lines ->
        getBcAuthHeader w0 = (Normal authHeader, w1) ->
        unprintable (customerNo user) = false ->
        lookupCustomer authHeader (customerNo user) w1 = (Normal customerId, w2) ->
        createOrderHeader authHeader customerId w2 = (Normal order, w3) ->
        nullish order = false ->
        unprintable (prop order "number") = false ->
        post_order req w
        = (Sends (mkHttpResponse 200
                    (JObj [("success", JBool true);
                           ("bcOrderNo", prop order "number");
                           ("message",
                            JStr ("Order " ++ toString (prop order "number")
                                    ++ " created in BC."))])),
           w3)
        /\ exists r res,
            trace w3
            = (trace w2
                 ++ [mkExchange
                       (createOrderRequest authHeader customerId (clock w2))
                       (clock w2) r])%list
            /\ result r = Some res /\ ok res = true).
Proof.
  split; [exact addLines_skip|].
  intros req w w0 w1 w2 w3 user customerId order lines authHeader
         Hauth Hlines Hne Hskip Hhdr Hno Hcust Horder Hnull Hnumber.
  destruct (authMiddleware_passes _ _ _ _ Hauth) as [-> _].
  split.
  - unfold post_order. rewrite (bind_normal _ _ _ _ _ Hauth).
    unfold order_handler. cbv zeta.
    assert (Hbody : nullish (req_body req) = false).
    { destruct (req_body req); try reflexivity; discriminate Hlines. }
    rewrite (try_bind_normal _ _ _ _ _ _ (getProp_normal _ "lines" w Hbody)).
    rewrite Hlines.
    assert (Hvalid : negb (truthy (JArr lines)) || negb (isArray (JArr lines))
                     || strict_eq (prop (JArr lines) "length") (JNum 0) = false).
    { destruct lines; [contradiction|reflexivity]. }
    rewrite Hvalid. cbn [when].
    rewrite (try_bind_normal _ _ _ w w tt eq_refl).
    rewrite (try_bind_normal _ _ _ _ _ _ Hhdr).
    rewrite (try_bind_normal _ _ _ _ _ _ Hcust).
    rewrite (try_bind_normal _ _ _ _ _ _ Horder).
    rewrite (try_bind_normal _ _ _ _ _ _ (getProp_normal _ "id" w3 Hnull)).
    cbn [elements].
    rewrite (try_bind_normal _ _ _ _ _ _
               (addLines_all_skipped authHeader _ lines w3 Hskip)).
    rewrite (try_bind_normal _ _ _ _ _ _ (getProp_normal _ "number" w3 Hnull)).
    rewrite (try_bind_normal _ _ _ _ _ _ (template_normal _ w3 Hnumber)).
    reflexivity.
  - destruct (createOrderHeader_normal _ _ _ _ _ Horder)
      as (r & res & Ht & Hr & Hok & _).
    exists r, res. repeat split; assumption.
Qed.

(** C10, as amended.  When the verified payload has no (truthy)
    [bcCustomerNo], POST /order does not stop: with valid lines and an access
    token at hand it sends the customer lookup, and the number it asks for is
    the value of BC_PORTAL_CUSTOMER_NO when that is set to a non-empty string,
    and the literal "C00010" when it is unset or empty. *)
Theorem order_falls_back_to_portal_customer
        (req : HttpRequest) (w w0 w1 : World) (user line : JValue)
        (rest : list JValue) (authHeader : string) :
  authMiddleware req w = (Normal user, w0) ->
  truthy (prop user "bcCustomerNo") = false ->
  prop (req_body req) "lines" = JArr (line :: rest) ->
  getBcAuthHeader w0 = (Normal authHeader, w1) ->
  exists (no : string) (more : list Exchange),
    customerNo user = JStr no
    /\ (forall s, env_BC_PORTAL_CUSTOMER_NO process_env = Some s ->
                  s <> "" -> no = s)
    /\ (env_BC_PORTAL_CUSTOMER_NO process_env = None
        \/ env_BC_PORTAL_CUSTOMER_NO process_env = Some "" ->
        no = "C00010")
    /\ trace (snd (post_order req w))
       = (trace w1
            ++ mkExchange (customerRequest authHeader (JStr no)) (clock w1)
                 (upstream (trace w1) (clock w1)
                           (customerRequest authHeader (JStr no)))
            :: more)%list.
Proof.
  intros Hauth Hno Hlines Hhdr.
  destruct (authMiddleware_passes _ _ _ _ Hauth) as [-> _].
  set (no := or_default (env_BC_PORTAL_CUSTOMER_NO process_env) "C00010").
  assert (Hcust : customerNo user = JStr no).
  { unfold customerNo. rewrite Hno, andb_false_r. reflexivity. }
  assert (Hrun : exists more,
             trace (snd (post_order req w))
             = (trace w1
                  ++ mkExchange (customerRequest authHeader (JStr no)) (clock w1)
                       (upstream (trace w1) (clock w1)
                                 (customerRequest authHeader (JStr no)))
                  :: more)%list).
  { unfold post_order. rewrite (bind_normal _ _ _ _ _ Hauth).
    unfold order_handler. cbv zeta. rewrite Hcust.
    assert (Hbody : nullish (req_body req) = false).
    { destruct (req_body req); try reflexivity; discriminate Hlines. }
    rewrite (try_bind_normal _ _ _ _ _ _ (getProp_normal _ "lines" w Hbody)).
    rewrite Hlines. cbn [truthy isArray negb orb prop String.eqb Ascii.eqb
                           Bool.eqb List.length strict_eq].
    cbn [when].
    rewrite (try_bind_normal _ _ _ w w tt eq_refl).
    rewrite (try_bind_normal _ _ _ _ _ _ Hhdr).
    unfold lookupCustomer at 1.
    pose proof tidy_createOrderHeader. pose proof tidy_addLines.
    apply fetch_then; intros; tidy_tac. }
  destruct Hrun as (more & Hmore).
  exists no, more. repeat split; try assumption.
  - intros s Hs Hne. unfold no. rewrite Hs. cbn [or_default].
    destruct (s =? "")%string eqn:E; [|reflexivity].
    apply String.eqb_eq in E. contradiction.
  - intros [Hs|Hs]; unfold no; rewrite Hs; reflexivity.
Qed.

(** *** Further properties of login and of the session check *)

Lemma strict_eq_JStr (a : string) (v : JValue) :
  strict_eq (JStr a) v = true <-> v = JStr a.
Proof.
  split.
  - destruct v; cbn; try discriminate. intros E.
    apply String.eqb_eq in E. subst. reflexivity.
  - intros ->. cbn. apply String.eqb_refl.
Qed.

(** X5. POST /login with a body object answers 200, with the token signed
    for that user and the user's email, exactly when [email] and [password]
    are the strings of one portal user, and 401 without a token otherwise;
    either way the world is left as it was. *)
Theorem login_decides (req : HttpRequest) (w : World) :
  nullish (req_body req) = false ->
  (exists u,
      In u PORTAL_USERS
      /\ prop (req_body req) "email" = JStr (email u)
      /\ prop (req_body req) "password" = JStr (password u)
      /\ login req w
         = (Sends (mkHttpResponse 200
                     (JObj [("token",
                             JStr (jwt_sign
                                     (JObj [("id", JNum (id u));
                                            ("email", JStr (email u));
                                            ("bcCustomerNo", JStr (bcCustomerNo u))])
                                     JWT_SECRET "8h" (clock w)));
                            ("user", JObj [("email", JStr (email u))])])),
            w))
  \/ ((forall u,
         In u PORTAL_USERS ->
         ~ (prop (req_body req) "email" = JStr (email u)
            /\ prop (req_body req) "password" = JStr (password u)))
      /\ login req w
         = (Sends (mkHttpResponse 401
                     (JObj [("error", JStr "Invalid email or password")])),
            w)).
Proof.
  intros Hbody. unfold login, bind.
  rewrite !(getProp_normal _ _ _ Hbody).
  set (e := prop (req_body req) "email").
  set (p := prop (req_body req) "password").
  cbn [find PORTAL_USERS email password id bcCustomerNo].
  destruct (strict_eq (JStr "Robertos-Rest") e) eqn:He1;
    [destruct (strict_eq (JStr "Rest1234") p) eqn:Hp1|]; cbn [andb].
  - left. eexists. split; [left; reflexivity|].
    apply strict_eq_JStr in He1, Hp1. cbn. repeat split; assumption.
  - destruct (strict_eq (JStr "Robertos-Roslyn") e) eqn:He2;
      [destruct (strict_eq (JStr "Ros1234") p) eqn:Hp2|]; cbn [andb].
    + left. eexists. split; [right; left; reflexivity|].
      apply strict_eq_JStr in He2, Hp2. cbn. repeat split; assumption.
    + right. split; [|reflexivity].
      intros u [<-|[<-|[]]] [Hue Hup]; cbn in Hue, Hup.
      * apply strict_eq_JStr in Hup. congruence.
      * apply strict_eq_JStr in Hup. congruence.
    + right. split; [|reflexivity].
      intros u [<-|[<-|[]]] [Hue Hup]; cbn in Hue, Hup.
      * apply strict_eq_JStr in Hup. congruence.
      * apply strict_eq_JStr in Hue. congruence.
  - destruct (strict_eq (JStr "Robertos-Roslyn") e) eqn:He2;
      [destruct (strict_eq (JStr "Ros1234") p) eqn:Hp2|]; cbn [andb].
    + left. eexists. split; [right; left; reflexivity|].
      apply strict_eq_JStr in He2, Hp2. cbn. repeat split; assumption.
    + right. split; [|reflexivity].
      intros u [<-|[<-|[]]] [Hue Hup]; cbn in Hue, Hup.
      * apply strict_eq_JStr in Hue. congruence.
      * apply strict_eq_JStr in Hup. congruence.
    + right. split; [|reflexivity].
      intros u [<-|[<-|[]]] [Hue Hup]; cbn in Hue, Hup.
      * apply strict_eq_JStr in Hue. congruence.
      * apply strict_eq_JStr in Hue. congruence.
Qed.

Lemma substring_all (s : string) : String.substring 0 (String.length s) s = s.
Proof. induction s as [|c s IH]; cbn; [reflexivity|]. rewrite IH. reflexivity. Qed.

Lemma bearer_of_token (token : string) :
  bearer ("Bearer " ++ token) = Some token.
Proof.
  unfold bearer. cbn [append String.prefix Ascii.ascii_dec].
  cbn. rewrite Nat.sub_0_r, substring_all.
  destruct token; reflexivity.
Qed.

(** A bearer token that verifies is let through, and the world is left as
    it was. *)
Lemma authMiddleware_accepts (token : string) (body user : JValue) (w : World) :
  token <> "" ->
  jwt_verify token JWT_SECRET (clock w) = inr user ->
  authMiddleware (mkHttpRequest (Some ("Bearer " ++ token)) body) w
  = (Normal user, w).
Proof.
  intros Hne Hv. unfold authMiddleware. cbn [authorization].
  change (or_default (Some ("Bearer " ++ token)) "") with ("Bearer " ++ token).
  cbv zeta. rewrite bearer_of_token.
  apply String.eqb_neq in Hne. rewrite Hne.
  unfold bind, Date_now. rewrite Hv. reflexivity.
Qed.

(** X6. Login and the session check fit together: the token POST /login
    issues to a portal user is accepted on the protected routes until it
    expires, from any world, and the customer number POST /order then works
    with is that user's. *)
Theorem login_session_orders
        (u : PortalUser) (auth : option string) (body : JValue) (w w2 : World) :
  In u PORTAL_USERS ->
  jwt_sound ->
  jwt_sign (JObj [("id", JNum (id u)); ("email", JStr (email u));
                  ("bcCustomerNo", JStr (bcCustomerNo u))])
           JWT_SECRET "8h" (clock w) <> "" ->
  clock w2 / 1000 < clock w / 1000 + 28800 ->
  exists token payload,
    login (mkHttpRequest auth
             (JObj [("email", JStr (email u)); ("password", JStr (password u))])) w
    = (Sends (mkHttpResponse 200
                (JObj [("token", JStr token);
                       ("user", JObj [("email", JStr (email u))])])),
       w)
    /\ authMiddleware (mkHttpRequest (Some ("Bearer " ++ token)) body) w2
       = (Normal payload, w2)
    /\ customerNo payload = JStr (bcCustomerNo u).
Proof.
  intros Hu Hjwt Hne Hlive.
  exists (jwt_sign (JObj [("id", JNum (id u)); ("email", JStr (email u));
                          ("bcCustomerNo", JStr (bcCustomerNo u))])
                   JWT_SECRET "8h" (clock w)).
  exists (JObj [("id", JNum (id u)); ("email", JStr (email u));
                ("bcCustomerNo", JStr (bcCustomerNo u));
                ("iat", JNum (clock w / 1000));
                ("exp", JNum (clock w / 1000 + 28800))]).
  split; [|split].
  - destruct Hu as [<-|[<-|[]]]; reflexivity.
  - apply authMiddleware_accepts; [exact Hne|].
    apply Hjwt. exact Hlive.
  - destruct Hu as [<-|[<-|[]]]; reflexivity.
Qed.

(** *** Further properties of POST /order *)

Lemma try_bind_sends {A B} (m : M A) (k : A -> M B) (h : JsError -> M B)
      (w w1 : World) (r : HttpResponse) :
  m w = (Sends r, w1) -> try_catch (bind m k) h w = (Sends r, w1).
Proof. intros E. unfold try_catch, bind. rewrite E. reflexivity. Qed.

Lemma try_bind_throws {A B} (m : M A) (k : A -> M B) (h : JsError -> M B)
      (w w1 : World) (e : JsError) :
  m w = (Throws e, w1) -> try_catch (bind m k) h w = h e w1.
Proof. intros E. unfold try_catch, bind. rewrite E. reflexivity. Qed.

(** With a session, lines and an access token at hand, POST /order comes to
    its three upstream steps. *)
Lemma order_reaches_upstream
      (req : HttpRequest) (w w0 w1 : World) (user : JValue)
      (lines : list JValue) (a : string) :
  authMiddleware req w = (Normal user, w0) ->
  prop (req_body req) "lines" = JArr lines -> lines <> [] ->
  getBcAuthHeader w0 = (Normal a, w1) ->
  post_order req w
  = try_catch
      (customerId <- lookupCustomer a (customerNo user) ;;
       order <- createOrderHeader a customerId ;;
       orderId <- getProp order "id" ;;
       addLines a orderId lines ;;;
       number <- getProp order "number" ;;
       text <- template number ;;
       send (order_created number text))
      (fun err =>
         console_error "❌ Error in /order:" (LError err) ;;;
         respond 500 (JObj [("error", JStr "Server error creating order.")]))
      w1.
Proof.
  intros Hauth Hlines Hne Hhdr.
  destruct (authMiddleware_passes _ _ _ _ Hauth) as [-> _].
  unfold post_order. rewrite (bind_normal _ _ _ _ _ Hauth).
  unfold order_handler. cbv zeta.
  assert (Hbody : nullish (req_body req) = false).
  { destruct (req_body req); try reflexivity; discriminate Hlines. }
  rewrite (try_bind_normal _ _ _ _ _ _ (getProp_normal _ "lines" w Hbody)).
  rewrite Hlines.
  assert (Hvalid : negb (truthy (JArr lines)) || negb (isArray (JArr lines))
                   || strict_eq (prop (JArr lines) "length") (JNum 0) = false).
  { destruct lines; [contradiction|reflexivity]. }
  rewrite Hvalid. cbn [when].
  rewrite (try_bind_normal _ _ _ w w tt eq_refl).
  rewrite (try_bind_normal _ _ _ _ _ _ Hhdr).
  reflexivity.
Qed.



Lemma createOrderHeader_refused (a : string) (customerId : JValue) (w : World)
      (res : Response) :
  result (upstream (trace w) (clock w)
                   (createOrderRequest a customerId (clock w))) = Some res ->
  ok res = false ->
  createOrderHeader a customerId w
  = (Sends (mkHttpResponse 500
              (JObj [("error", JStr "Failed to create order header in BC.")])),
     logged "❌ BC create order error:" (LText (text res))
            (arrived (createOrderRequest a customerId (clock w))
                     (upstream (trace w) (clock w)
                               (createOrderRequest a customerId (clock w))) w)).
Proof.
  intros Hres Hok. unfold createOrderHeader, bind, Date_now, fetch.
  rewrite Hres, Hok. reflexivity.
Qed.



(** X9. When the ERP answers the creation of the order header with a
    response that is not a success, POST /order answers 500 with a fixed
    message and stops: the header request is the last exchange, so no line
    is sent. *)
Theorem order_header_refused
        (req : HttpRequest) (w w0 w1 w2 : World) (user customerId : JValue)
        (lines : list JValue) (a : string) (res : Response) :
  authMiddleware req w = (Normal user, w0) ->
  prop (req_body req) "lines" = JArr lines -> lines <> [] ->
  getBcAuthHeader w0 = (Normal a, w1) ->
  lookupCustomer a (customerNo user) w1 = (Normal customerId, w2) ->
  result (upstream (trace w2) (clock w2)
                   (createOrderRequest a customerId (clock w2))) = Some res ->
  ok res = false ->
  post_order req w
  = (Sends (mkHttpResponse 500
              (JObj [("error", JStr "Failed to create order header in BC.")])),
     logged "❌ BC create order error:" (LText (text res))
            (arrived (createOrderRequest a customerId (clock w2))
                     (upstream (trace w2) (clock w2)
                               (createOrderRequest a customerId (clock w2))) w2)).
Proof.
  intros Hauth Hlines Hne Hhdr Hcust Hres Hok.
  rewrite (order_reaches_upstream _ _ _ _ _ _ _ Hauth Hlines Hne Hhdr).
  rewrite (try_bind_normal _ _ _ _ _ _ Hcust).
  apply try_bind_sends. apply createOrderHeader_refused; assumption.
Qed.

(** What a turn of the loop that returns has done: nothing for a line it
    leaves out, one successful exchange for a line it sends. *)
Lemma addLine_normal (a : string) (o line : JValue) (w w' : World) :
  addLine a o line w = (Normal tt, w') ->
  nullish line = false
  /\ ((wanted line = false /\ w' = w)
      \/ (wanted line = true
          /\ w' = arrived (lineRequest a o line)
                          (upstream (trace w) (clock w) (lineRequest a o line)) w
          /\ exists res,
              result (upstream (trace w) (clock w) (lineRequest a o line)) = Some res
              /\ ok res = true)).
Proof.
  unfold addLine, bind, getProp, wanted, skipped.
  destruct (nullish line); [discriminate|].
  unfold ret at 1.
  destruct (truthy (prop line "id")); cbn [negb orb].
  - unfold ret at 1.
    destruct (truthy (prop line "quantity")); cbn [negb orb].
    + unfold fetch, arrived.
      destruct (result (upstream (trace w) (clock w) (lineRequest a o line)))
        as [res|] eqn:Hres; [|discriminate].
      destruct (ok res) eqn:Hok; cbn [negb when]; [|discriminate].
      unfold ret. intros E. inversion E.
      split; [reflexivity|]. right. split; [reflexivity|].
      split; [reflexivity|]. exists res. split; [reflexivity|exact Hok].
    + unfold ret. intros E. inversion E.
      split; [reflexivity|]. left. split; reflexivity.
  - unfold ret. intros E. inversion E.
    split; [reflexivity|]. left. split; reflexivity.
Qed.

Lemma addLines_normal (a : string) (o : JValue) (lines : list JValue)
      (w w' : World) :
  addLines a o lines w = (Normal tt, w') ->
  exists more,
    trace w' = (trace w ++ more)%list
    /\ map request more = map (lineRequest a o) (filter wanted lines)
    /\ Forall (fun x => exists res, result (reply x) = Some res /\ ok res = true)
              more
    /\ console w' = console w
    /\ cachedToken w' = cachedToken w
    /\ cachedTokenExpiresAt w' = cachedTokenExpiresAt w.
Proof.
  revert w w'. induction lines as [|line rest IH]; intros w w' E.
  - inversion E; subst. exists []. cbn. rewrite app_nil_r.
    repeat split. constructor.
  - cbn [addLines] in E. unfold bind at 1 in E.
    destruct (addLine a o line w) as [[[]|e|r] wl] eqn:El; try discriminate E.
    destruct (addLine_normal _ _ _ _ _ El) as [_ [[Hw ->]|(Hw & -> & res & Hres & Hok)]];
      destruct (IH _ _ E) as (more & Ht & Hreq & Hok' & Hc & Htok & Hexp);
      cbn [filter]; rewrite Hw.
    + exists more. repeat split; assumption.
    + exists (mkExchange (lineRequest a o line) (clock w)
                         (upstream (trace w) (clock w) (lineRequest a o line))
              :: more).
      cbn [arrived trace console cachedToken cachedTokenExpiresAt] in *.
      repeat split; try assumption.
      * rewrite Ht, <- app_assoc. reflexivity.
      * cbn [map request]. rewrite Hreq. reflexivity.
      * constructor; [|exact Hok']. exists res. split; assumption.
Qed.

(** The lines the loop sends are those whose [id] and [quantity] are both
    truthy. *)
Lemma wanted_both (line : JValue) :
  wanted line = truthy (prop line "id") && truthy (prop line "quantity").
Proof.
  unfold wanted, skipped.
  destruct (truthy (prop line "id")), (truthy (prop line "quantity"));
    reflexivity.
Qed.

(** X10. When POST /order goes through, it has sent, after the header, one
    request for each line with a truthy [id] and [quantity] and for no other,
    in the order of the body: a POST to the company's [salesOrderLines] under
    the bearer header and the JSON content type, whose body has the order's
    id as [documentId], "Item" as [lineType], the line's [id] as [itemId] and
    its [quantity]; each was answered by a success; and the route answers
    200 with [success: true], the order number and the message naming it.
    The customer number and the order number are values that convert to
    text. *)
Theorem order_sends_wanted_lines
        (req : HttpRequest) (w w0 w1 w2 w3 w4 : World)
        (user customerId order : JValue) (lines : list JValue) (a : string) :
  authMiddleware req w = (Normal user, w0) ->
  prop (req_body req) "lines" = JArr lines -> lines <> [] ->
  getBcAuthHeader w0 = (Normal a, w1) ->
  unprintable (customerNo user) = false ->
  lookupCustomer a (customerNo user) w1 = (Normal customerId, w2) ->
  createOrderHeader a customerId w2 = (Normal order, w3) ->
  nullish order = false ->
  addLines a (prop order "id") lines w3 = (Normal tt, w4) ->
  unprintable (prop order "number") = false ->
  post_order req w
  = (Sends (mkHttpResponse 200
              (JObj [("success", JBool true);
                     ("bcOrderNo", prop order "number");
                     ("message",
                      JStr ("Order " ++ toString (prop order "number")
                              ++ " created in BC."))])),
     w4)
  /\ exists more,
      trace w4 = (trace w3 ++ more)%list
      /\ map request more
         = map (fun line =>
                  mkRequest (COMPANY_URL ++ "/salesOrderLines") "POST"
                    [("Authorization", a); ("Content-Type", "application/json")]
                    (JsonText (JObj [("documentId", prop order "id");
                                     ("lineType", JStr "Item");
                                     ("itemId", prop line "id");
                                     ("quantity", prop line "quantity")])))
               (filter (fun line => truthy (prop line "id")
                                    && truthy (prop line "quantity"))
                       lines)
      /\ Forall (fun x => exists res, result (reply x) = Some res /\ ok res = true)
                more.
Proof.
  intros Hauth Hlines Hne Hhdr Hno Hcust Horder Hnull Hloop Hnumber.
  split.
  - rewrite (order_reaches_upstream _ _ _ _ _ _ _ Hauth Hlines Hne Hhdr).
    rewrite (try_bind_normal _ _ _ _ _ _ Hcust).
    rewrite (try_bind_normal _ _ _ _ _ _ Horder).
    rewrite (try_bind_normal _ _ _ _ _ _ (getProp_normal _ "id" w3 Hnull)).
    rewrite (try_bind_normal _ _ _ _ _ _ Hloop).
    rewrite (try_bind_normal _ _ _ _ _ _ (getProp_normal _ "number" w4 Hnull)).
    rewrite (try_bind_normal _ _ _ _ _ _ (template_normal _ w4 Hnumber)).
    reflexivity.
  - destruct (addLines_normal _ _ _ _ _ Hloop) as (more & Ht & Hreq & Hok & _).
    exists more. split; [exact Ht|]. split; [|exact Hok].
    rewrite Hreq. rewrite (filter_ext _ _ wanted_both). reflexivity.
Qed.

Lemma addLines_app (a : string) (o : JValue) (pre rest : list JValue) (w : World) :
  addLines a o (pre ++ rest) w
  = bind (addLines a o pre) (fun _ => addLines a o rest) w.
Proof.
  revert w. induction pre as [|line pre IH]; intros w; [reflexivity|].
  cbn [app addLines]. unfold bind.
  destruct (addLine a o line w) as [[[]|e|r] wl]; try reflexivity.
  rewrite IH. reflexivity.
Qed.

(** X11. A [null] among the lines is not left out: once the lines before it
    are through, reading its [id] throws, and POST /order answers 500 with
    the general message, after the header and those lines were created and
    without sending the lines that follow. *)
Theorem order_null_line
        (req : HttpRequest) (w w0 w1 w2 w3 w4 : World)
        (user customerId order line : JValue) (pre rest : list JValue)
        (a : string) :
  authMiddleware req w = (Normal user, w0) ->
  prop (req_body req) "lines" = JArr (pre ++ line :: rest) ->
  getBcAuthHeader w0 = (Normal a, w1) ->
  lookupCustomer a (customerNo user) w1 = (Normal customerId, w2) ->
  createOrderHeader a customerId w2 = (Normal order, w3) ->
  nullish order = false ->
  addLines a (prop order "id") pre w3 = (Normal tt, w4) ->
  nullish line = true ->
  post_order req w
  = (Sends (mkHttpResponse 500
              (JObj [("error", JStr "Server error creating order.")])),
     logged "❌ Error in /order:"
            (LError (TypeError ("Cannot read properties of " ++ toString line)))
            w4).
Proof.
  intros Hauth Hlines Hhdr Hcust Horder Hnull Hpre Hline.
  assert (Hne : (pre ++ line :: rest)%list <> []).
  { destruct pre; discriminate. }
  rewrite (order_reaches_upstream _ _ _ _ _ _ _ Hauth Hlines Hne Hhdr).
  rewrite (try_bind_normal _ _ _ _ _ _ Hcust).
  rewrite (try_bind_normal _ _ _ _ _ _ Horder).
  rewrite (try_bind_normal _ _ _ _ _ _ (getProp_normal _ "id" w3 Hnull)).
  erewrite try_bind_throws; [reflexivity|].
  rewrite addLines_app. rewrite (bind_normal _ _ _ _ _ Hpre).
  cbn [addLines]. unfold bind, addLine, getProp. rewrite Hline. reflexivity.
Qed.

(** *** The routes always answer *)

Lemma passing_ret {A} (a : A) : passing (ret a).
Proof. intros w r w' E. discriminate E. Qed.

Lemma passing_throw {A} (e : JsError) : passing (@throw A e).
Proof. intros w r w' E. discriminate E. Qed.

Lemma passing_console_error (msg : string) (arg : LogArg) :
  passing (console_error msg arg).
Proof. intros w r w' E. discriminate E. Qed.

Lemma passing_Date_now : passing Date_now.
Proof. intros w r w' E. discriminate E. Qed.

Lemma passing_read_cachedToken : passing read_cachedToken.
Proof. intros w r w' E. discriminate E. Qed.

Lemma passing_read_cachedTokenExpiresAt : passing read_cachedTokenExpiresAt.
Proof. intros w r w' E. discriminate E. Qed.

Lemma passing_write_cachedToken (v : JValue) : passing (write_cachedToken v).
Proof. intros w r w' E. discriminate E. Qed.

Lemma passing_write_cachedTokenExpiresAt (t : option Z) :
  passing (write_cachedTokenExpiresAt t).
Proof. intros w r w' E. discriminate E. Qed.

Lemma passing_getProp (v : JValue) (k : string) : passing (getProp v k).
Proof. intros w r w'. unfold getProp. destruct (nullish v); discriminate. Qed.

Lemma passing_template (v : JValue) : passing (template v).
Proof. intros w r w'. unfold template. destruct (unprintable v); discriminate. Qed.

Lemma passing_res_text (r : Response) : passing (res_text r).
Proof. intros w r' w' E. discriminate E. Qed.

Lemma passing_res_json (r : Response) : passing (res_json r).
Proof. intros w r' w'. unfold res_json. destruct (json r); discriminate. Qed.

Lemma passing_fetch (req : Request) : passing (fetch req).
Proof.
  intros w r w'. unfold fetch.
  destruct (result (upstream (trace w) (clock w) req)); discriminate.
Qed.

Lemma passing_send {A} (r : HttpResponse) : well_formed r -> passing (@send A r).
Proof. intros Hr w r' w' E. inversion E; subst. exact Hr. Qed.

Lemma passing_respond {A} (code : Z) (v : JValue) :
  well_formed (mkHttpResponse code v) -> passing (@respond A code v).
Proof. apply passing_send. Qed.

Lemma passing_when (c : bool) (m : M unit) : passing m -> passing (when c m).
Proof. intros Hm. destruct c; [exact Hm|apply passing_ret]. Qed.

Lemma passing_bind {A B} (m : M A) (k : A -> M B) :
  passing m -> (forall a, passing (k a)) -> passing (bind m k).
Proof.
  intros Hm Hk w r w' E. unfold bind in E.
  destruct (m w) as [[a|e|r1] w1] eqn:Em.
  - exact (Hk a w1 r w' E).
  - discriminate E.
  - inversion E; subst. exact (Hm w r w' Em).
Qed.

Lemma passing_try_catch {A} (m : M A) (h : JsError -> M A) :
  passing m -> (forall e, passing (h e)) -> passing (try_catch m h).
Proof.
  intros Hm Hh w r w' E. unfold try_catch in E.
  destruct (m w) as [[a|e|r1] w1] eqn:Em.
  - discriminate E.
  - exact (Hh e w1 r w' E).
  - inversion E; subst. exact (Hm w r w' Em).
Qed.

Lemma passing_mapM {A B} (f : A -> M B) (xs : list A) :
  (forall x, passing (f x)) -> passing (mapM f xs).
Proof.
  intros Hf. induction xs as [|x rest IH]; cbn [mapM].
  - apply passing_ret.
  - apply passing_bind; [apply Hf|]. intros y.
    apply passing_bind; [exact IH|]. intros ys. apply passing_ret.
Qed.

Lemma passing_array_map (f : JValue -> M JValue) (v : JValue) :
  (forall x, passing (f x)) -> passing (array_map f v).
Proof.
  intros Hf. destruct v; cbn [array_map]; try apply passing_throw.
  apply passing_bind; [apply passing_mapM; exact Hf|].
  intros ys. apply passing_ret.
Qed.

Lemma closing_send {A} (r : HttpResponse) : well_formed r -> closing (@send A r).
Proof.
  intros Hr. split; [apply passing_send; exact Hr|].
  intros w a w' E. discriminate E.
Qed.

Lemma closing_respond {A} (code : Z) (v : JValue) :
  well_formed (mkHttpResponse code v) -> closing (@respond A code v).
Proof. apply closing_send. Qed.

Lemma closing_bind {A B} (m : M A) (k : A -> M B) :
  passing m -> (forall a, closing (k a)) -> closing (bind m k).
Proof.
  intros Hm Hk. split.
  - apply passing_bind; [exact Hm|]. intros a. apply Hk.
  - intros w b w' E. unfold bind in E.
    destruct (m w) as [[a|e|r1] w1] eqn:Em; try discriminate E.
    exact (proj2 (Hk a) w1 b w' E).
Qed.

Lemma answering_try_catch {A} (m : M A) (h : JsError -> M A) :
  closing m -> (forall e, answering (h e)) -> answering (try_catch m h).
Proof.
  intros [Hpass Hnever] Hh w. unfold try_catch.
  destruct (m w) as [[a|e|r] w1] eqn:Em.
  - exfalso. exact (Hnever w a w1 Em).
  - apply Hh.
  - exists r, w1. split; [reflexivity|]. exact (Hpass w r w1 Em).
Qed.

Lemma error_well_formed (msg : string) :
  well_formed (mkHttpResponse 500 (JObj [("error", JStr msg)])).
Proof. right. split; [auto|]. exists msg. reflexivity. Qed.

Lemma answering_catch (tag msg : string) (err : JsError) :
  answering (console_error tag (LError err) ;;;
             @respond unit 500 (JObj [("error", JStr msg)])).
Proof.
  intros w. eexists. eexists. split; [reflexivity|]. apply error_well_formed.
Qed.

Ltac well_formed_tac :=
  first [ left; reflexivity
        | right; split; [cbn; auto|eexists; reflexivity] ].

Ltac pass_step :=
  lazymatch goal with
  | H : passing ?m |- passing ?m => exact H
  | |- passing (bind _ _) => apply passing_bind; [|intro]
  | |- passing (try_catch _ _) => apply passing_try_catch; [|intro]
  | |- passing (when _ _) => apply passing_when
  | |- passing (array_map _ _) => apply passing_array_map; intro
  | |- passing (if ?c then _ else _) => destruct c
  | |- passing (match ?v with inl _ => _ | inr _ => _ end) => destruct v
  | |- passing (send _) => apply passing_send; well_formed_tac
  | |- passing (respond _ _) => apply passing_respond; well_formed_tac
  | |- passing (ret _) => apply passing_ret
  | |- passing (throw _) => apply passing_throw
  | |- passing (console_error _ _) => apply passing_console_error
  | |- passing Date_now => apply passing_Date_now
  | |- passing read_cachedToken => apply passing_read_cachedToken
  | |- passing read_cachedTokenExpiresAt => apply passing_read_cachedTokenExpiresAt
  | |- passing (write_cachedToken _) => apply passing_write_cachedToken
  | |- passing (write_cachedTokenExpiresAt _) =>
      apply passing_write_cachedTokenExpiresAt
  | |- passing (getProp _ _) => apply passing_getProp
  | |- passing (template _) => apply passing_template
  | |- passing (res_text _) => apply passing_res_text
  | |- passing (res_json _) => apply passing_res_json
  | |- passing (fetch _) => apply passing_fetch
  | |- passing _ => solve [auto]
  end.

Ltac pass_tac := cbv beta zeta; repeat (pass_step; cbv beta zeta).

Ltac close_step :=
  lazymatch goal with
  | |- closing (bind _ _) => apply closing_bind; [pass_tac|intro]
  | |- closing (if ?c then _ else _) => destruct c
  | |- closing (send _) => apply closing_send; well_formed_tac
  | |- closing (respond _ _) => apply closing_respond; well_formed_tac
  end.

Ltac close_tac := cbv beta zeta; repeat (close_step; cbv beta zeta).

Lemma passing_getBcAuthHeader : passing getBcAuthHeader.
Proof. unfold getBcAuthHeader, getAccessToken. pass_tac. Qed.

Lemma passing_lookupCustomer (a : string) (no : JValue) :
  passing (lookupCustomer a no).
Proof. unfold lookupCustomer. pass_tac. Qed.

Lemma passing_createOrderHeader (a : string) (customerId : JValue) :
  passing (createOrderHeader a customerId).
Proof. unfold createOrderHeader. pass_tac. Qed.

Lemma passing_addLines (a : string) (o : JValue) (lines : list JValue) :
  passing (addLines a o lines).
Proof.
  induction lines as [|line rest IH]; cbn [addLines]; [apply passing_ret|].
  apply passing_bind; [|intros _; exact IH].
  unfold addLine. pass_tac.
Qed.

Lemma answering_order_handler (req : HttpRequest) (user : JValue) :
  answering (order_handler req user).
Proof.
  unfold order_handler. apply answering_try_catch.
  - pose proof passing_getBcAuthHeader. pose proof passing_lookupCustomer.
    pose proof passing_createOrderHeader. pose proof passing_addLines.
    close_tac.
  - intros e. apply answering_catch.
Qed.

Lemma answering_orders_handler (req : HttpRequest) (user : JValue) :
  answering (orders_handler req user).
Proof.
  unfold orders_handler. apply answering_try_catch.
  - pose proof passing_getBcAuthHeader. close_tac.
  - intros e. apply answering_catch.
Qed.

Lemma answering_after_auth (req : HttpRequest) (handler : JValue -> M unit) :
  (forall user, answering (handler user)) ->
  answering (bind (authMiddleware req) handler).
Proof.
  intros Hh w. unfold bind.
  destruct (authMiddleware req w) as [[user|e|r] w0] eqn:Ha.
  - apply Hh.
  - exfalso. revert Ha.
    unfold authMiddleware, respond, send, bind, Date_now, console_error, ret.
    destruct (bearer (or_default (authorization req) "")) as [token|];
      [|discriminate].
    destruct (token =? "")%string; [discriminate|].
    destruct (jwt_verify token JWT_SECRET (clock w)); discriminate.
  - exists r, w0. split; [reflexivity|]. revert Ha.
    unfold authMiddleware, respond, send, bind, Date_now, console_error, ret.
    destruct (bearer (or_default (authorization req) "")) as [token|].
    + destruct (token =? "")%string.
      * intros E. inversion E. well_formed_tac.
      * destruct (jwt_verify token JWT_SECRET (clock w)); [|discriminate].
        intros E. inversion E. well_formed_tac.
    + intros E. inversion E. well_formed_tac.
Qed.

(** X12. In a run of POST /order, GET /orders or GET /items in which every
    upstream call settles, with a response of any kind or with a transport
    failure (the code sets no timeout, and a run in which a call never
    settles does not end), no exception reaches Express and the handler does
    not come to its end without answering: whatever the request, the world
    and what the remote side answers (refusals, bodies that are no JSON,
    documents of any shape), the run ends by sending a response, which is a
    200, or a 400, 401 or 500 whose body is one [error] string. *)
Theorem routes_end_by_answering
        (req : HttpRequest) (w w' : World) (out : Outcome unit) :
  post_order req w = (out, w')
  \/ get_orders req w = (out, w')
  \/ get_items w = (out, w') ->
  exists r, out = Sends r /\ well_formed r.
Proof.
  assert (Hends : forall m : M unit,
             answering m -> m w = (out, w') ->
             exists r, out = Sends r /\ well_formed r).
  { intros m Hm E. destruct (Hm w) as (r & w1 & E1 & Hr).
    rewrite E1 in E. inversion E. exists r. split; [reflexivity|exact Hr]. }
  intros [E|[E|E]]; refine (Hends _ _ E).
  - unfold post_order. apply answering_after_auth.
    apply answering_order_handler.
  - unfold get_orders. apply answering_after_auth.
    apply answering_orders_handler.
  - unfold get_items. apply answering_try_catch.
    + pose proof passing_getBcAuthHeader. close_tac.
    + intros e. apply answering_catch.
Qed.

Lemma authMiddleware_sends_trace
      (req : HttpRequest) (w w' : World) (r : HttpResponse) :
  authMiddleware req w = (Sends r, w') -> trace w' = trace w.
Proof.
  unfold authMiddleware, respond, send, bind, Date_now, console_error, ret.
  destruct (bearer (or_default (authorization req) "")) as [token|].
  - destruct (token =? "")%string.
    + intros E. inversion E. reflexivity.
    + destruct (jwt_verify token JWT_SECRET (clock w)); [|discriminate].
      intros E. inversion E. reflexivity.
  - intros E. inversion E. reflexivity.
Qed.

(** *** What POST /order sends *)

Lemma adds_only_silent {A} (P : Exchange -> Prop) (m : M A) :
  (forall w, trace (snd (m w)) = trace w) -> adds_only P m.
Proof.
  intros Hm w out w' E. exists []. split; [|constructor].
  rewrite app_nil_r. specialize (Hm w). rewrite E in Hm. exact Hm.
Qed.

Lemma adds_only_getProp (P : Exchange -> Prop) (v : JValue) (k : string) :
  adds_only P (getProp v k).
Proof.
  apply adds_only_silent. intros w. unfold getProp.
  destruct (nullish v); reflexivity.
Qed.

Lemma adds_only_template (P : Exchange -> Prop) (v : JValue) :
  adds_only P (template v).
Proof.
  apply adds_only_silent. intros w. unfold template.
  destruct (unprintable v); reflexivity.
Qed.

Lemma adds_only_res_json (P : Exchange -> Prop) (r : Response) :
  adds_only P (res_json r).
Proof.
  apply adds_only_silent. intros w. unfold res_json.
  destruct (json r); reflexivity.
Qed.

Lemma adds_only_when (P : Exchange -> Prop) (c : bool) (m : M unit) :
  adds_only P m -> adds_only P (when c m).
Proof.
  intros Hm. destruct c; [exact Hm|]. apply adds_only_silent. reflexivity.
Qed.

Lemma adds_only_bind {A B} (P : Exchange -> Prop) (m : M A) (k : A -> M B) :
  adds_only P m -> (forall a, adds_only P (k a)) -> adds_only P (bind m k).
Proof.
  intros Hm Hk w out w' E. unfold bind in E.
  destruct (m w) as [o1 w1] eqn:Em.
  destruct (Hm w o1 w1 Em) as (more1 & Ht1 & HP1).
  destruct o1 as [a|e|r].
  - destruct (Hk a w1 out w' E) as (more2 & Ht2 & HP2).
    exists (more1 ++ more2)%list. split.
    + rewrite Ht2, Ht1, app_assoc. reflexivity.
    + apply Forall_app. split; assumption.
  - inversion E; subst. exists more1. split; assumption.
  - inversion E; subst. exists more1. split; assumption.
Qed.

Lemma adds_only_try_catch {A} (P : Exchange -> Prop) (m : M A)
      (h : JsError -> M A) :
  adds_only P m -> (forall e, adds_only P (h e)) -> adds_only P (try_catch m h).
Proof.
  intros Hm Hh w out w' E. unfold try_catch in E.
  destruct (m w) as [o1 w1] eqn:Em.
  destruct (Hm w o1 w1 Em) as (more1 & Ht1 & HP1).
  destruct o1 as [a|e|r].
  - inversion E; subst. exists more1. split; assumption.
  - destruct (Hh e w1 out w' E) as (more2 & Ht2 & HP2).
    exists (more1 ++ more2)%list. split.
    + rewrite Ht2, Ht1, app_assoc. reflexivity.
    + apply Forall_app. split; assumption.
  - inversion E; subst. exists more1. split; assumption.
Qed.

Lemma adds_only_fetch (P : Exchange -> Prop) (req : Request) :
  (forall t r, P (mkExchange req t r)) -> adds_only P (fetch req).
Proof.
  intros HP w out w' E. unfold fetch in E.
  exists [mkExchange req (clock w) (upstream (trace w) (clock w) req)].
  split.
  - destruct (result (upstream (trace w) (clock w) req)); inversion E; reflexivity.
  - constructor; [apply HP|constructor].
Qed.

Ltac adds_step :=
  lazymatch goal with
  | H : adds_only ?P ?m |- adds_only ?P ?m => exact H
  | |- adds_only _ (bind _ _) => apply adds_only_bind; [|intro]
  | |- adds_only _ (try_catch _ _) => apply adds_only_try_catch; [|intro]
  | |- adds_only _ (when _ _) => apply adds_only_when
  | |- adds_only _ (if ?c then _ else _) => destruct c
  | |- adds_only _ (fetch _) =>
      apply adds_only_fetch; intros; split; cbn; auto
  | |- adds_only _ (getProp _ _) => apply adds_only_getProp
  | |- adds_only _ (template _) => apply adds_only_template
  | |- adds_only _ (res_json _) => apply adds_only_res_json
  | |- adds_only _ _ =>
      first [ solve [auto] | apply adds_only_silent; intros; reflexivity ]
  end.

Ltac adds_tac := cbv beta zeta; repeat (adds_step; cbv beta zeta).

Lemma adds_only_addLines (a : string) (o : JValue) (lines : list JValue) :
  adds_only (erp_call a) (addLines a o lines).
Proof.
  induction lines as [|line rest IH]; cbn [addLines].
  - apply adds_only_silent. reflexivity.
  - apply adds_only_bind; [|intros _; exact IH].
    unfold addLine. adds_tac.
Qed.

Lemma adds_only_lookupCustomer (a : string) (no : JValue) :
  adds_only (erp_call a) (lookupCustomer a no).
Proof. unfold lookupCustomer. adds_tac. Qed.

Lemma adds_only_createOrderHeader (a : string) (customerId : JValue) :
  adds_only (erp_call a) (createOrderHeader a customerId).
Proof. unfold createOrderHeader. adds_tac. Qed.

(** The header fetches the token at most once: nothing is sent while the
    cache is fresh, the token request otherwise. *)
Lemma getBcAuthHeader_trace (w : World) :
  trace (snd (getBcAuthHeader w))
  = (trace w
       ++ if fresh w then []
          else [mkExchange tokenRequest (clock w)
                           (upstream (trace w) (clock w) tokenRequest)])%list.
Proof.
  assert (Hsame : trace (snd (getBcAuthHeader w)) = trace (snd (getAccessToken w))).
  { unfold getBcAuthHeader, bind, template.
    destruct (getAccessToken w) as [[tok|e|r] w1]; try reflexivity.
    destruct (unprintable tok); reflexivity. }
  rewrite Hsame. destruct (fresh w) eqn:Hf.
  - rewrite (getAccessToken_fresh w Hf). cbn. rewrite app_nil_r. reflexivity.
  - apply getAccessToken_stale_trace. exact Hf.
Qed.

Lemma order_handler_traffic (req : HttpRequest) (user : JValue) (w w' : World)
      (out : Outcome unit) :
  order_handler req user w = (out, w') ->
  exists tok rest a,
    trace w' = (trace w ++ tok ++ rest)%list
    /\ (tok = []
        \/ (fresh w = false
            /\ tok = [mkExchange tokenRequest (clock w)
                                 (upstream (trace w) (clock w) tokenRequest)]))
    /\ Forall (erp_call a) rest.
Proof.
  unfold order_handler. cbv zeta. intros E.
  assert (Hstop : trace w' = trace w ->
                  exists tok rest a,
                    trace w' = (trace w ++ tok ++ rest)%list
                    /\ (tok = []
                        \/ (fresh w = false
                            /\ tok = [mkExchange tokenRequest (clock w)
                                         (upstream (trace w) (clock w) tokenRequest)]))
                    /\ Forall (erp_call a) rest).
  { intros Ht. exists [], [], "". rewrite Ht, app_nil_r.
    repeat split; [left; reflexivity|constructor]. }
  destruct (nullish (req_body req)) eqn:Hbody.
  - erewrite try_bind_throws in E
      by (unfold getProp; rewrite Hbody; reflexivity).
    apply Hstop. inversion E. reflexivity.
  - rewrite (try_bind_normal _ _ _ _ _ _ (getProp_normal _ "lines" w Hbody)) in E.
    match type of E with
    | context [when ?c _] => destruct c
    end.
    + erewrite try_bind_sends in E by reflexivity.
      apply Hstop. inversion E. reflexivity.
    + cbn [when] in E. rewrite (try_bind_normal (ret tt) _ _ w w tt eq_refl) in E.
      pose proof (getBcAuthHeader_trace w) as Htok.
      destruct (getBcAuthHeader w) as [[a|e|r] w1] eqn:Eh; cbn [snd] in Htok.
      * rewrite (try_bind_normal _ _ _ _ _ _ Eh) in E.
        match type of E with
        | ?m w1 = _ => assert (Hrest : adds_only (erp_call a) m)
        end.
        { pose proof (adds_only_addLines a).
          pose proof (adds_only_lookupCustomer a).
          pose proof (adds_only_createOrderHeader a).
          adds_tac. }
        destruct (Hrest w1 out w' E) as (rest & Ht & HP).
        exists (if fresh w then []
                else [mkExchange tokenRequest (clock w)
                                 (upstream (trace w) (clock w) tokenRequest)]),
               rest, a.
        split; [rewrite Ht, Htok, app_assoc; reflexivity|].
        split; [|exact HP].
        destruct (fresh w); [left; reflexivity|right; split; reflexivity].
      * rewrite (try_bind_throws _ _ _ _ _ _ Eh) in E.
        assert (Hw : trace w' = trace w1) by (inversion E; reflexivity).
        exists (if fresh w then []
                else [mkExchange tokenRequest (clock w)
                                 (upstream (trace w) (clock w) tokenRequest)]),
               [], "".
        split; [rewrite Hw, Htok, app_nil_r; reflexivity|].
        split; [|constructor].
        destruct (fresh w); [left; reflexivity|right; split; reflexivity].
      * rewrite (try_bind_sends _ _ _ _ _ _ Eh) in E.
        assert (Hw : trace w' = trace w1) by (inversion E; reflexivity).
        exists (if fresh w then []
                else [mkExchange tokenRequest (clock w)
                                 (upstream (trace w) (clock w) tokenRequest)]),
               [], "".
        split; [rewrite Hw, Htok, app_nil_r; reflexivity|].
        split; [|constructor].
        destruct (fresh w); [left; reflexivity|right; split; reflexivity].
Qed.

(** X13. Whatever happens in a run of POST /order, what it has sent is at
    most one token request, first and only when the cache was not fresh,
    followed by requests to the ERP that are GETs or POSTs and all carry the
    same bearer header: the token is not fetched again within a request, and
    nothing is ever deleted or changed upstream. *)
Theorem order_traffic (req : HttpRequest) (w w' : World) (out : Outcome unit) :
  post_order req w = (out, w') ->
  exists tok rest a,
    trace w' = (trace w ++ tok ++ rest)%list
    /\ (tok = []
        \/ (fresh w = false
            /\ tok = [mkExchange tokenRequest (clock w)
                                 (upstream (trace w) (clock w) tokenRequest)]))
    /\ Forall (erp_call a) rest.
Proof.
  unfold post_order, bind. intros E.
  destruct (authMiddleware req w) as [[user|e|r] w0] eqn:Ha.
  - destruct (authMiddleware_passes _ _ _ _ Ha) as [-> _].
    exact (order_handler_traffic _ _ _ _ _ E).
  - exfalso. revert Ha.
    unfold authMiddleware, respond, send, bind, Date_now, console_error, ret.
    destruct (bearer (or_default (authorization req) "")) as [token|];
      [|discriminate].
    destruct (token =? "")%string; [discriminate|].
    destruct (jwt_verify token JWT_SECRET (clock w)); discriminate.
  - inversion E; subst.
    pose proof (authMiddleware_sends_trace req w _ _ Ha) as Ht.
    exists [], [], "". rewrite Ht, app_nil_r.
    repeat split; [left; reflexivity|constructor].
Qed.

(** *** GET /orders and GET /items *)

Lemma mapM_each {A B} (f : A -> M B) (g : A -> B) (xs : list A) (w : World) :
  Forall (fun x => forall w, f x w = (Normal (g x), w)) xs ->
  mapM f xs w = (Normal (map g xs), w).
Proof.
  induction 1 as [|x rest Hx _ IH]; [reflexivity|].
  cbn [mapM map]. unfold bind at 1. rewrite Hx.
  unfold bind at 1. rewrite IH. reflexivity.
Qed.








(** X17. When the ERP answers GET /items with a success whose [value] is
    an array of records, the route answers 200 with one summary per record,
    in the same order: [id] as it is, [no], [name] and [price] taken from
    [number], [displayName] and [unitPrice], [inventory], and the barcode. *)
Theorem items_listed
        (w w1 : World) (data : JValue) (xs : list JValue) (a : string)
        (res : Response) :
  getBcAuthHeader w = (Normal a, w1) ->
  result (upstream (trace w1) (clock w1) (itemsRequest a)) = Some res ->
  ok res = true -> json res = Some data ->
  prop data "value" = JArr xs ->
  Forall (fun item => nullish item = false) xs ->
  get_items w
  = (Sends (mkHttpResponse 200 (JArr (map item_summary xs))),
     arrived (itemsRequest a)
             (upstream (trace w1) (clock w1) (itemsRequest a)) w1).
Proof.
  intros Hhdr Hres Hok Hjson Hvalue Hxs.
  assert (Hdata : nullish data = false).
  { destruct data; try reflexivity; discriminate Hvalue. }
  unfold get_items.
  rewrite (try_bind_normal _ _ _ _ _ _ Hhdr).
  unfold try_catch, bind at 1, fetch. rewrite Hres, Hok. cbn [negb].
  unfold bind at 1, res_json. rewrite Hjson. unfold ret at 1.
  unfold bind at 1. rewrite (getProp_normal _ _ _ Hdata), Hvalue.
  unfold bind at 1, array_map, bind at 1.
  rewrite (mapM_each _ item_summary).
  - reflexivity.
  - apply Forall_impl with (2 := Hxs). intros o Ho w'.
    unfold bind. rewrite (getProp_normal _ _ _ Ho). reflexivity.
Qed.

(** X18. The barcode GET /items reports for an item is the first truthy
    one of its [gtin], [GTIN], [gtinCode] and [GTINCode], and [null] when
    none is: never [undefined], an empty string or 0. *)
Theorem item_gtin_first_truthy (item : JValue) :
  item_gtin item
  = match find truthy [prop item "gtin"; prop item "GTIN";
                       prop item "gtinCode"; prop item "GTINCode"] with
    | Some v => v
    | None => JNull
    end.
Proof.
  unfold item_gtin, js_or. cbn [find].
  destruct (truthy (prop item "gtin")) eqn:H1.
  - rewrite H1, H1, H1. reflexivity.
  - destruct (truthy (prop item "GTIN")) eqn:H2.
    + rewrite H2, H2. reflexivity.
    + destruct (truthy (prop item "gtinCode")) eqn:H3.
      * rewrite H3. reflexivity.
      * destruct (truthy (prop item "GTINCode")) eqn:H4; reflexivity.
Qed.

End Routes.

(** ** The demo host honours the library contract *)

Lemma Demo_unframe_from (k n : nat) (t : string) :
  Demo.unframe_from n (Demo.ticks k ++ String "0" t) = Demo.split_at (n + k) t.
Proof.
  revert n. induction k as [|k IH]; intros n; cbn.
  - rewrite Nat.add_0_r. reflexivity.
  - rewrite IH. f_equal. lia.
Qed.

Lemma Demo_split_at (s rest : string) :
  Demo.split_at (String.length s) (s ++ rest) = Some (s, rest).
Proof.
  induction s as [|c s IH]; cbn; [reflexivity|].
  rewrite IH. reflexivity.
Qed.

Lemma Demo_unframe (s rest : string) :
  Demo.unframe (Demo.frame s rest) = Some (s, rest).
Proof.
  unfold Demo.unframe, Demo.frame.
  rewrite Demo_unframe_from. apply Demo_split_at.
Qed.

Lemma Demo_parse_show (z : Z) : Demo.parse_Z (show_Z z) = Some z.
Proof.
  unfold Demo.parse_Z, show_Z.
  rewrite NilZero.isi.
  - cbn. rewrite Stdlib.Numbers.DecimalZ.of_to. reflexivity.
  - destruct z; cbn; try discriminate;
      intros E; inversion E as [E'];
      exact (Stdlib.Numbers.DecimalPos.Unsigned.to_uint_nonnil _ E').
  - destruct z; cbn; try discriminate;
      intros E; inversion E as [E'];
      exact (Stdlib.Numbers.DecimalPos.Unsigned.to_uint_nonnil _ E').
Qed.

Lemma Demo_jwt_sound (r : Reply) : @jwt_sound (Demo.host r).
Proof.
  intros i e c secret now t Ht.
  cbn [jwt_verify jwt_sign Demo.host Demo.host_in].
  unfold Demo.sign. cbn [prop lookup String.eqb Ascii.eqb Bool.eqb].
  unfold Demo.verify.
  repeat rewrite Demo_unframe.
  repeat rewrite Demo_parse_show.
  rewrite String.eqb_refl. cbn [negb].
  apply Z.ltb_lt in Ht. rewrite Ht. reflexivity.
Qed.

(** ** The properties at work on the demo host *)

(** C1 on the demo host: the world left by a first call serves "tok-1" from
    the cache, and a second call five seconds later adds nothing to the one
    exchange of the first. *)
Lemma getAccessToken_serves_cache_witness :
  fresh Demo.w1 = true
  /\ @getAccessToken Demo.h Demo.w1 = (Normal (JStr "tok-1"), Demo.w1)
  /\ fresh Demo.w0 = false
  /\ @getAccessToken Demo.h (later 5000 Demo.w1)
     = (Normal (JStr "tok-1"), later 5000 Demo.w1)
  /\ List.length (trace (later 5000 Demo.w1)) = 1%nat.
Proof.
  split; [reflexivity|].
  split; [apply (proj1 (@getAccessToken_serves_cache Demo.h Demo.w1)); reflexivity|].
  split; [reflexivity|].
  destruct (proj2 (@getAccessToken_serves_cache Demo.h Demo.w0)
                  (JStr "tok-1") Demo.w1 5000%N eq_refl eq_refl eq_refl)
    as [Hcall Htrace].
  split; [exact Hcall|].
  rewrite Htrace. reflexivity.
Defined.

(** C2 on the demo host: the hour-long grant received at time 1000 is cached
    until 3541000. *)
Lemma getAccessToken_refresh_sets_expiry_witness :
  fresh Demo.w0 = false
  /\ 3600 <> 0
  /\ exists w1,
      @getAccessToken Demo.h Demo.w0 = (Normal (JStr "tok-1"), w1)
      /\ cachedToken w1 = JStr "tok-1"
      /\ cachedTokenExpiresAt w1 = Some 3541000.
Proof.
  split; [reflexivity|]. split; [discriminate|].
  destruct (@getAccessToken_refresh_sets_expiry Demo.h Demo.w0
              (Demo.granted "tok-1" 3600)
              (mkResponse true ""
                 (Some (JObj [("access_token", JStr "tok-1");
                              ("expires_in", JNum 3600)])))
              (JObj [("access_token", JStr "tok-1"); ("expires_in", JNum 3600)])
              3600 eq_refl eq_refl eq_refl eq_refl eq_refl eq_refl
              ltac:(discriminate))
    as (w1 & Hcall & Htok & Hexp & _).
  exists w1. repeat split; assumption.
Defined.

(** C3 as stated fails on the demo host whose identity provider refuses the
    client: the call does not throw an error that carries the response
    body. *)
Lemma getAccessToken_error_lacks_body :
  ~ exists e w',
      @getAccessToken Demo.h_refusing Demo.w0 = (Throws e, w')
      /\ carries e Demo.denial = true.
Proof.
  intros (e & w' & Hcall & Hcarries).
  vm_compute in Hcall. inversion Hcall; subst e.
  vm_compute in Hcarries. discriminate Hcarries.
Qed.

(** C3 as amended, on the same host. *)
Lemma getAccessToken_failure_keeps_cache_witness :
  fresh Demo.w0 = false
  /\ exists w',
      @getAccessToken Demo.h_refusing Demo.w0
      = (Throws (Error (@token_failure_message)), w')
      /\ cachedToken w' = JNull
      /\ cachedTokenExpiresAt w' = Some 0.
Proof.
  split; [reflexivity|].
  destruct (@getAccessToken_failure_keeps_cache Demo.h_refusing Demo.w0
              (Demo.refused Demo.denial)
              (mkResponse false Demo.denial None)
              eq_refl eq_refl eq_refl eq_refl)
    as (w' & Hcall & Htok & Hexp & _).
  exists w'. repeat split; assumption.
Defined.



(** C5 on the demo host. *)
Lemma login_roberto_witness :
  @jwt_sound Demo.h
  /\ exists token,
      @login Demo.h
        (mkHttpRequest None
           (JObj [("email", JStr "Robertos-Rest"); ("password", JStr "Rest1234")]))
        Demo.w0
      = (Sends (mkHttpResponse 200
                  (JObj [("token", JStr token);
                         ("user", JObj [("email", JStr "Robertos-Rest")])])),
         Demo.w0)
      /\ exists payload,
          Demo.verify token "change-me" 2000 = inr payload
          /\ prop payload "id" = JNum 1
          /\ prop payload "email" = JStr "Robertos-Rest"
          /\ prop payload "bcCustomerNo" = JStr "CUST-00466".
Proof.
  split; [apply Demo_jwt_sound|].
  destruct (@login_roberto Demo.h None Demo.w0 (Demo_jwt_sound _))
    as (token & Hrun & Hverify).
  exists token. split; [exact Hrun|].
  apply (Hverify 2000). reflexivity.
Defined.

(** C6 on the demo host: an order with an empty array of lines. *)
Lemma order_without_lines_rejected_witness :
  @authMiddleware Demo.h (Demo.order_request Demo.session (JArr [])) Demo.w0
  = (Normal Demo.user, Demo.w0)
  /\ @post_order Demo.h (Demo.order_request Demo.session (JArr [])) Demo.w0
     = (Sends (mkHttpResponse 400 (JObj [("error", JStr "No order lines provided.")])),
        Demo.w0).
Proof.
  split; [reflexivity|].
  apply (@order_without_lines_rejected Demo.h _ Demo.w0 Demo.w0 Demo.user).
  - reflexivity.
  - reflexivity.
  - intros xs Hxs. vm_compute in Hxs. inversion Hxs. reflexivity.
Defined.

(** C7 on the demo host: a bearer token the server never signed. *)
Lemma unauthenticated_request_rejected_witness :
  @session_rejected Demo.h (Demo.order_request "forged" (JArr [Demo.line "i-1" 2]))
                    (clock Demo.w0)
  /\ exists msg w',
      @post_order Demo.h (Demo.order_request "forged" (JArr [Demo.line "i-1" 2]))
                  Demo.w0
      = (Sends (mkHttpResponse 401 (JObj [("error", JStr msg)])), w')
      /\ trace w' = [].
Proof.
  assert (Hrej : @session_rejected Demo.h
                   (Demo.order_request "forged" (JArr [Demo.line "i-1" 2]))
                   (clock Demo.w0)).
  { right. exists Demo.invalid. reflexivity. }
  split; [exact Hrej|].
  destruct (@unauthenticated_request_rejected Demo.h _ Demo.w0 Hrej)
    as (msg & w' & _ & Hpost & _ & Htrace & _).
  exists msg, w'. split; assumption.
Defined.

(** C8 on the demo host: the second of three lines is refused; the trace of
    the run is the token exchange, the customer lookup, the header creation
    and the two line creations, the last of them the refused one. *)
Lemma failed_line_ends_order_witness :
  @failed_line Demo.h
    (nth 4 (trace (snd (@post_order Demo.h Demo.blocked_order Demo.w0)))
         (mkExchange (@tokenRequest Demo.h) 0 (Demo.refused "")))
  = true
  /\ fst (@post_order Demo.h Demo.blocked_order Demo.w0)
     = Sends (mkHttpResponse 500
                (JObj [("error", JStr "Failed to add an order line in BC.")]))
  /\ List.length (trace (snd (@post_order Demo.h Demo.blocked_order Demo.w0)))
     = 5%nat.
Proof.
  set (run := @post_order Demo.h Demo.blocked_order Demo.w0).
  set (dflt := mkExchange (@tokenRequest Demo.h) 0 (Demo.refused "")).
  assert (Hfailed : @failed_line Demo.h (nth 4 (trace (snd run)) dflt) = true)
    by reflexivity.
  split; [exact Hfailed|].
  destruct (@failed_line_ends_order Demo.h Demo.blocked_order Demo.w0 (snd run)
              (fst run) (firstn 4 (trace (snd run)))
              (skipn 5 (trace (snd run)))
              (nth 4 (trace (snd run)) dflt)
              eq_refl eq_refl Hfailed)
    as [Hout Hpost].
  split; [exact Hout|reflexivity].
Defined.

(** C9 on the demo host: an order of three lines, none of which is sent,
    is answered with success after three exchanges: the token exchange, the
    customer lookup and the header creation. *)
Lemma skipped_lines_send_nothing_witness :
  Forall (fun line => nullish line = false /\ skipped line = true) Demo.idle_lines
  /\ @post_order Demo.h (Demo.order_request Demo.session (JArr Demo.idle_lines))
                 Demo.w0
     = (Sends (mkHttpResponse 200
                 (JObj [("success", JBool true);
                        ("bcOrderNo", JStr "SO-1001");
                        ("message", JStr "Order SO-1001 created in BC.")])),
        Demo.w3)
  /\ List.length (trace Demo.w3) = 3%nat.
Proof.
  assert (Hidle : Forall (fun line => nullish line = false /\ skipped line = true)
                         Demo.idle_lines).
  { repeat constructor. }
  split; [exact Hidle|].
  destruct (proj2 (@skipped_lines_send_nothing Demo.h)
                  (Demo.order_request Demo.session (JArr Demo.idle_lines))
                  Demo.w0 Demo.w0 Demo.w1 Demo.w2 Demo.w3
                  Demo.user Demo.customerId Demo.order Demo.idle_lines
                  Demo.authHeader
                  eq_refl eq_refl ltac:(discriminate) Hidle
                  eq_refl eq_refl eq_refl eq_refl eq_refl eq_refl)
    as [Hrun _].
  split; [exact Hrun|reflexivity].
Defined.

(** C9 as stated fails on the demo host for the order whose only line is
    [null]: that line has no [id] and no [quantity], yet it is not left out
    silently and the route does not answer with success.  Reading its [id]
    throws; the error is written to the console and the route answers 500,
    after the header was created. *)
Lemma null_line_not_skipped :
  skipped JNull = true
  /\ fst (@post_order Demo.h Demo.void_order Demo.w0)
     = Sends (mkHttpResponse 500
                (JObj [("error", JStr "Server error creating order.")]))
  /\ map (fun x => (method (request x), url (request x)))
         (trace (snd (@post_order Demo.h Demo.void_order Demo.w0)))
     = [ ("POST", "https://login.microsoftonline.com/contoso/oauth2/v2.0/token");
         ("GET", "https://api.businesscentral.dynamics.com/v2.0/contoso/Production/api/v2.0/companies(9f1c)/customers?$filter=number eq 'CUST-00466'");
         ("POST", "https://api.businesscentral.dynamics.com/v2.0/contoso/Production/api/v2.0/companies(9f1c)/salesOrders") ]
  /\ console (snd (@post_order Demo.h Demo.void_order Demo.w0))
     = [ ("❌ Error in /order:",
          LError (TypeError "Cannot read properties of null")) ].
Proof.
  split; [reflexivity|]. split; [reflexivity|]. split; reflexivity.
Qed.

(** C10 as stated fails on the demo host whose BC_PORTAL_CUSTOMER_NO is set
    to the empty string: the order of a guest without customer number does
    not look up the customer numbered by the variable, but "C00010". *)
Lemma blank_portal_customer_not_used :
  env_BC_PORTAL_CUSTOMER_NO (@process_env Demo.h_blank) = Some ""
  /\ @authMiddleware Demo.h_blank Demo.guest_order Demo.w0
     = (Normal Demo.guest, Demo.w0)
  /\ truthy (prop Demo.guest "bcCustomerNo") = false
  /\ @customerNo Demo.h_blank Demo.guest <> JStr ""
  /\ map (fun x => url (request x))
         (firstn 2 (trace (snd (@post_order Demo.h_blank Demo.guest_order Demo.w0))))
     = [ "https://login.microsoftonline.com/contoso/oauth2/v2.0/token";
         "https://api.businesscentral.dynamics.com/v2.0/contoso/Production/api/v2.0/companies(9f1c)/customers?$filter=number eq 'C00010'" ].
Proof.
  split; [reflexivity|]. split; [reflexivity|]. split; [reflexivity|].
  split; [|reflexivity].
  vm_compute. discriminate.
Qed.

(** C10 as amended, on the demo host where BC_PORTAL_CUSTOMER_NO is unset:
    the order of a guest without customer number looks up customer
    "C00010". *)
Lemma order_falls_back_to_portal_customer_witness :
  @authMiddleware Demo.h Demo.guest_order Demo.w0 = (Normal Demo.guest, Demo.w0)
  /\ truthy (prop Demo.guest "bcCustomerNo") = false
  /\ exists more,
      trace (snd (@post_order Demo.h Demo.guest_order Demo.w0))
      = (trace Demo.w1
           ++ mkExchange (@customerRequest Demo.h Demo.authHeader (JStr "C00010"))
                (clock Demo.w1)
                (@upstream Demo.h (trace Demo.w1) (clock Demo.w1)
                           (@customerRequest Demo.h Demo.authHeader (JStr "C00010")))
           :: more)%list.
Proof.
  split; [reflexivity|]. split; [reflexivity|].
  destruct (@order_falls_back_to_portal_customer Demo.h Demo.guest_order
              Demo.w0 Demo.w0 Demo.w1 Demo.guest
              (JObj [("id", JStr "i-1"); ("no", JStr "1000"); ("quantity", JNum 2)])
              [] Demo.authHeader eq_refl eq_refl eq_refl eq_refl)
    as (no & more & _ & _ & Hunset & Htrace).
  rewrite (Hunset (or_introl eq_refl)) in Htrace.
  exists more. exact Htrace.
Defined.

(** ** The further properties at work on the demo hosts *)

(** X1 where the identity provider reports as lifetime an object with a
    [toString] field: the call throws with the new token stored and the
    expiry as it was. *)
Lemma getAccessToken_throw_effects_witness :
  cachedToken Demo.w0 = JNull
  /\ exists w',
      @getAccessToken Demo.h_opaque Demo.w0
      = (Throws (TypeError "Cannot convert object to primitive value"), w')
      /\ cachedToken w' = JStr "tok-1"
      /\ cachedTokenExpiresAt w' = Some 0
      /\ List.length (trace w') = 1%nat.
Proof.
  split; [reflexivity|].
  exists (snd (@getAccessToken Demo.h_opaque Demo.w0)).
  split; [reflexivity|].
  destruct (@getAccessToken_throw_effects Demo.h_opaque Demo.w0
              (snd (@getAccessToken Demo.h_opaque Demo.w0))
              (TypeError "Cannot convert object to primitive value") eq_refl)
    as (Hexp & Htrace & _).
  split; [reflexivity|]. split; [exact Hexp|].
  rewrite Htrace. reflexivity.
Defined.

(** X2 where the identity provider reports no lifetime. *)
Lemma getAccessToken_default_lifetime_witness :
  fresh Demo.w0 = false
  /\ truthy (prop (JObj [("access_token", JStr "tok-1")]) "expires_in") = false
  /\ exists w1,
      @getAccessToken Demo.h_plain Demo.w0 = (Normal (JStr "tok-1"), w1)
      /\ cachedTokenExpiresAt w1 = Some 3541000.
Proof.
  split; [reflexivity|]. split; [reflexivity|].
  destruct (@getAccessToken_default_lifetime Demo.h_plain Demo.w0
              (mkResponse true "" (Some (JObj [("access_token", JStr "tok-1")])))
              (JObj [("access_token", JStr "tok-1")])
              eq_refl eq_refl eq_refl eq_refl eq_refl eq_refl)
    as (w1 & Hcall & _ & Hexp).
  exists w1. split; assumption.
Defined.

(** X3 where the identity provider reports an empty object as lifetime. *)
Lemma getAccessToken_nan_lifetime_witness :
  fresh Demo.w0 = false
  /\ @toNumber Demo.h_odd (JObj []) = inr None
  /\ exists w1,
      @getAccessToken Demo.h_odd Demo.w0 = (Normal (JStr "tok-1"), w1)
      /\ cachedTokenExpiresAt w1 = None
      /\ fresh (later 1 w1) = false.
Proof.
  split; [reflexivity|]. split; [reflexivity|].
  destruct (@getAccessToken_nan_lifetime Demo.h_odd Demo.w0
              (mkResponse true ""
                 (Some (JObj [("access_token", JStr "tok-1");
                              ("expires_in", JObj [])])))
              (JObj [("access_token", JStr "tok-1"); ("expires_in", JObj [])])
              eq_refl eq_refl eq_refl eq_refl eq_refl eq_refl eq_refl)
    as (w1 & Hcall & _ & Hexp & Hlater).
  exists w1. split; [exact Hcall|]. split; [exact Hexp|].
  exact (proj1 (Hlater 1%N)).
Defined.

Lemma Demo_reports_lifetimes : @reports_lifetimes Demo.h.
Proof.
  intros history t res data Hres _ Hjson.
  cbn in Hres. inversion Hres; subst res.
  cbn in Hjson. inversion Hjson; subst data.
  exists 3600. split; [reflexivity|discriminate].
Qed.

(** X4 on the demo host, over three calls: at start, five seconds later
    and after the first token has expired. *)
Lemma cache_backed_always_witness :
  @reports_lifetimes Demo.h
  /\ @cache_backed Demo.h (@calls Demo.h [0; 5000; 4000000]%N (boot 1000))
  /\ List.length (trace (@calls Demo.h [0; 5000; 4000000]%N (boot 1000))) = 2%nat.
Proof.
  split; [exact Demo_reports_lifetimes|].
  split; [|reflexivity].
  exact (@cache_backed_always Demo.h [0; 5000; 4000000]%N 1000
           Demo_reports_lifetimes).
Defined.

(** X5 on the demo host: the first user's email with the second user's
    password. *)
Lemma login_decides_witness :
  nullish (JObj [("email", JStr "Robertos-Rest"); ("password", JStr "Ros1234")])
  = false
  /\ @login Demo.h
       (mkHttpRequest None
          (JObj [("email", JStr "Robertos-Rest"); ("password", JStr "Ros1234")]))
       Demo.w0
     = (Sends (mkHttpResponse 401
                 (JObj [("error", JStr "Invalid email or password")])),
        Demo.w0).
Proof.
  split; [reflexivity|].
  destruct (@login_decides Demo.h
              (mkHttpRequest None
                 (JObj [("email", JStr "Robertos-Rest");
                        ("password", JStr "Ros1234")]))
              Demo.w0 eq_refl)
    as [(u & Hin & He & Hp & _)|[_ Hrun]].
  - exfalso. destruct Hin as [<-|[<-|[]]].
    + discriminate Hp.
    + discriminate He.
  - exact Hrun.
Defined.

(** X6 on the demo host: the second user logs in at time 1000 and comes
    back a minute later. *)
Lemma login_session_orders_witness :
  @jwt_sound Demo.h
  /\ exists token payload,
      @authMiddleware Demo.h
        (mkHttpRequest (Some ("Bearer " ++ token)) (JObj []))
        (later 60000 Demo.w0)
      = (Normal payload, later 60000 Demo.w0)
      /\ @customerNo Demo.h payload = JStr "CUST-00232".
Proof.
  split; [apply Demo_jwt_sound|].
  destruct (@login_session_orders Demo.h
              (mkPortalUser 2 "Robertos-Roslyn" "Ros1234" "CUST-00232")
              None (JObj []) Demo.w0 (later 60000 Demo.w0)
              (or_intror (or_introl eq_refl))
              (Demo_jwt_sound _)
              ltac:(vm_compute; discriminate)
              ltac:(vm_compute; reflexivity))
    as (token & payload & _ & Hauth & Hno).
  exists token, payload. split; assumption.
Defined.



(** X9 where the ERP refuses the order header. *)
Lemma order_header_refused_witness :
  @lookupCustomer Demo.h_header_down Demo.authHeader (JStr "CUST-00466") Demo.w1
  = (Normal Demo.customerId, Demo.w2)
  /\ fst (@post_order Demo.h_header_down Demo.small_order Demo.w0)
     = Sends (mkHttpResponse 500
                (JObj [("error", JStr "Failed to create order header in BC.")]))
  /\ map (fun x => url (request x))
         (skipn 2 (trace (snd (@post_order Demo.h_header_down Demo.small_order
                                           Demo.w0))))
     = [ @createOrderUrl Demo.h_header_down ].
Proof.
  split; [reflexivity|].
  rewrite (@order_header_refused Demo.h_header_down Demo.small_order
             Demo.w0 Demo.w0 Demo.w1 Demo.w2 Demo.user Demo.customerId
             [Demo.line "i-1" 2] Demo.authHeader
             (mkResponse false "Posting date is not within your range." None)
             eq_refl eq_refl ltac:(discriminate) eq_refl eq_refl eq_refl eq_refl).
  split; reflexivity.
Defined.

(** X10 on the demo host: of three lines the second has quantity 0; two
    line requests follow the header. *)
Lemma order_sends_wanted_lines_witness :
  @addLines Demo.h Demo.authHeader (JStr "o-41d2") Demo.mixed_lines Demo.w3
  = (Normal tt,
     snd (@addLines Demo.h Demo.authHeader (JStr "o-41d2") Demo.mixed_lines Demo.w3))
  /\ @post_order Demo.h Demo.mixed_order Demo.w0
     = (Sends (mkHttpResponse 200
                 (JObj [("success", JBool true);
                        ("bcOrderNo", JStr "SO-1001");
                        ("message", JStr "Order SO-1001 created in BC.")])),
        snd (@addLines Demo.h Demo.authHeader (JStr "o-41d2") Demo.mixed_lines
                       Demo.w3))
  /\ exists more,
      trace (snd (@addLines Demo.h Demo.authHeader (JStr "o-41d2")
                            Demo.mixed_lines Demo.w3))
      = (trace Demo.w3 ++ more)%list
      /\ map request more
         = [ mkRequest
               "https://api.businesscentral.dynamics.com/v2.0/contoso/Production/api/v2.0/companies(9f1c)/salesOrderLines"
               "POST"
               [("Authorization", "Bearer tok-1");
                ("Content-Type", "application/json")]
               (JsonText (JObj [("documentId", JStr "o-41d2");
                                ("lineType", JStr "Item");
                                ("itemId", JStr "i-1");
                                ("quantity", JNum 2)]));
             mkRequest
               "https://api.businesscentral.dynamics.com/v2.0/contoso/Production/api/v2.0/companies(9f1c)/salesOrderLines"
               "POST"
               [("Authorization", "Bearer tok-1");
                ("Content-Type", "application/json")]
               (JsonText (JObj [("documentId", JStr "o-41d2");
                                ("lineType", JStr "Item");
                                ("itemId", JStr "i-3");
                                ("quantity", JNum 1)])) ].
Proof.
  split; [reflexivity|].
  destruct (@order_sends_wanted_lines Demo.h Demo.mixed_order
              Demo.w0 Demo.w0 Demo.w1 Demo.w2 Demo.w3
              (snd (@addLines Demo.h Demo.authHeader (JStr "o-41d2")
                              Demo.mixed_lines Demo.w3))
              Demo.user Demo.customerId Demo.order Demo.mixed_lines
              Demo.authHeader
              eq_refl eq_refl ltac:(discriminate) eq_refl eq_refl eq_refl
              eq_refl eq_refl eq_refl eq_refl)
    as (Hrun & more & Htrace & Hreq & _).
  split; [exact Hrun|].
  exists more. split; [exact Htrace|exact Hreq].
Defined.

(** X11 on the demo host: the second of three lines is [null]; the first
    line was sent, the third is not. *)
Lemma order_null_line_witness :
  nullish JNull = true
  /\ fst (@post_order Demo.h Demo.null_order Demo.w0)
     = Sends (mkHttpResponse 500
                (JObj [("error", JStr "Server error creating order.")]))
  /\ List.length (trace (snd (@post_order Demo.h Demo.null_order Demo.w0)))
     = 4%nat.
Proof.
  split; [reflexivity|].
  rewrite (@order_null_line Demo.h Demo.null_order
             Demo.w0 Demo.w0 Demo.w1 Demo.w2 Demo.w3
             (snd (@addLines Demo.h Demo.authHeader (JStr "o-41d2")
                             [Demo.line "i-1" 2] Demo.w3))
             Demo.user Demo.customerId Demo.order JNull
             [Demo.line "i-1" 2] [Demo.line "i-3" 1] Demo.authHeader
             eq_refl eq_refl eq_refl eq_refl eq_refl eq_refl eq_refl eq_refl).
  split; reflexivity.
Defined.

(** X12 on the demo host whose identity provider answers a page that is no
    JSON: the order is answered 500 with the general message. *)
Lemma routes_end_by_answering_witness :
  fst (@post_order Demo.h_garbled Demo.small_order Demo.w0)
  = Sends (mkHttpResponse 500
             (JObj [("error", JStr "Server error creating order.")]))
  /\ exists r,
      fst (@post_order Demo.h_garbled Demo.small_order Demo.w0) = Sends r
      /\ well_formed r.
Proof.
  split; [reflexivity|].
  exact (@routes_end_by_answering Demo.h_garbled Demo.small_order Demo.w0
           (snd (@post_order Demo.h_garbled Demo.small_order Demo.w0))
           (fst (@post_order Demo.h_garbled Demo.small_order Demo.w0))
           (or_introl eq_refl)).
Defined.

(** X13 on the demo host, for the order whose second line is refused. *)
Lemma order_traffic_witness :
  exists tok rest a,
    trace (snd (@post_order Demo.h Demo.blocked_order Demo.w0))
    = (trace Demo.w0 ++ tok ++ rest)%list
    /\ (tok = []
        \/ (fresh Demo.w0 = false
            /\ tok = [mkExchange (@tokenRequest Demo.h) (clock Demo.w0)
                        (@upstream Demo.h (trace Demo.w0) (clock Demo.w0)
                                   (@tokenRequest Demo.h))]))
    /\ Forall (erp_call a) rest.
Proof.
  exact (@order_traffic Demo.h Demo.blocked_order Demo.w0
           (snd (@post_order Demo.h Demo.blocked_order Demo.w0))
           (fst (@post_order Demo.h Demo.blocked_order Demo.w0))
           eq_refl).
Defined.




(** X17 where the ERP lists two items, one with its barcode under [GTIN]
    and one without any. *)
Lemma items_listed_witness :
  Forall (fun item => nullish item = false) Demo.catalog
  /\ fst (@get_items Demo.h_items Demo.w0)
     = Sends (mkHttpResponse 200
                (JArr [JObj [("id", JStr "i-1"); ("no", JStr "1000");
                             ("name", JStr "Olive oil"); ("price", JNum 12);
                             ("inventory", JNum 40);
                             ("gtin", JStr "5201234000017")];
                       JObj [("id", JStr "i-2"); ("no", JStr "1001");
                             ("name", JStr "Sea salt"); ("price", JNum 3);
                             ("inventory", JNum 0); ("gtin", JNull)]])).
Proof.
  assert (Hall : Forall (fun item => nullish item = false) Demo.catalog).
  { repeat constructor. }
  split; [exact Hall|].
  rewrite (@items_listed Demo.h_items Demo.w0 Demo.w1
             (JObj [("value", JArr Demo.catalog)]) Demo.catalog Demo.authHeader
             (mkResponse true "" (Some (JObj [("value", JArr Demo.catalog)])))
             eq_refl eq_refl eq_refl eq_refl eq_refl Hall).
  reflexivity.
Defined.
